(** * LiMAX17048G: the register protocol of the MAX17048G fuel-gauge driver

    A shallow embedding of [LiMAX17048G.cpp].  The driver is a stateless
    encoder/decoder over a two-wire bus: every member function is a short,
    straight-line sequence of calls on the Arduino [Wire] object.  The
    embedding keeps that shape: the [Wire] object is an explicit state
    threaded through a small state monad, the device at the other end of the
    bus is an interface (a type class), and each member function of the
    driver is one definition carrying the name it has in the source. *)

From Stdlib Require Import ZArith List Bool Lia Floats.
Import ListNotations.
Local Open Scope Z_scope.

(** ** Integer conversions

    [uint8_t] values are integers in [0, 256); a conversion to [uint8_t]
    reduces modulo 256.  Expressions of type [int] are kept as unbounded
    integers: every intermediate value of the driver lies within
    [-4096, 4096], inside any C++ [int]. *)

Definition u8 (z : Z) : Z := z mod 256.

Definition is_u8 (z : Z) : Prop := 0 <= z < 256.

(** ** What the translation unit takes from [LiMAX17048G.h]

    The header is not part of the sources at hand.  The macros it defines
    and the one identifier the translation unit names without declaring it
    are taken as parameters. *)

Class Header : Type := {
  MAX1704X_ADDR         : Z;
  MAX1704X_VCELL_ADDR   : Z;
  MAX1704X_SOC_ADDR     : Z;
  MAX1704X_MODE_ADDR    : Z;
  MAX1704X_VERSION_ADDR : Z;
  MAX1704X_CONFIG_ADDR  : Z;
  MAX1704X_RCOMP_ADDR   : Z;
  MAX1704X_ATHRD_ADDR   : Z;
  MAX1704X_COMMAND_ADDR : Z;
  (** [thrd] is named once, in the last [Wire.write] of
      [setAlertThreshold]; that function declares [threshold],
      [compensation] and [sleepBit] only. *)
  thrd                  : Z
}.

(** The register map of the MAX17048 datasheet, device address 0x36, for
    running the model; [t] is the value of [thrd]. *)
Definition datasheet (t : Z) : Header := {|
  MAX1704X_ADDR         := 0x36;
  MAX1704X_VCELL_ADDR   := 0x02;
  MAX1704X_SOC_ADDR     := 0x04;
  MAX1704X_MODE_ADDR    := 0x06;
  MAX1704X_VERSION_ADDR := 0x08;
  MAX1704X_CONFIG_ADDR  := 0x0C;
  MAX1704X_RCOMP_ADDR   := 0x0C;
  MAX1704X_ATHRD_ADDR   := 0x0D;
  MAX1704X_COMMAND_ADDR := 0xFE;
  thrd                  := t
|}.

(** ** [double]

    The two measurement functions return [double].  Its width depends on
    the target (32 bits with avr-gcc, 64 bits elsewhere), so the arithmetic
    is an interface; [binary64] instantiates it with IEEE 754 doubles. *)

Class Double : Type := {
  double     : Type;
  of_int     : Z -> double;
  lit_0_00125 : double;
  dmul       : double -> double -> double;
  dadd       : double -> double -> double;
  ddiv       : double -> double -> double
}.

Definition float_of_Z (z : Z) : float :=
  if z <? 0 then PrimFloat.opp (PrimFloat.of_uint63 (Uint63.of_Z (- z)))
  else PrimFloat.of_uint63 (Uint63.of_Z z).

Definition binary64 : Double := {|
  double := float;
  of_int := float_of_Z;
  lit_0_00125 := 0x1.47ae147ae147bp-10%float;
  dmul := PrimFloat.mul;
  dadd := PrimFloat.add;
  ddiv := PrimFloat.div
|}.

(** ** The bus

    [Wire] is the [TwoWire] object of the Arduino core, the transport the
    driver is written against: [beginTransmission] opens a transmit buffer,
    [write] appends a byte to it, [endTransmission] sends it as one write
    transaction and returns the status, [requestFrom] performs one read
    transaction into the receive buffer and [read] takes the next byte out
    of it.

    The device is whatever answers on the bus: it takes a write transaction
    (target address, payload, stop condition) and returns the transport's
    status code, and it answers a read transaction with bytes. *)

Class I2CDevice (D : Type) : Type := {
  dev_write : Z -> list Z -> bool -> D -> Z * D;
  dev_read  : Z -> Z -> D -> list Z * D
}.

(** What a capture of the wire shows. *)
Inductive BusEvent : Type :=
| EvWrite (address : Z) (payload : list Z) (sendStop : bool)
| EvRead  (address : Z) (quantity : Z) (data : list Z).

(** The [Wire] object: the transmit buffer being filled, the receive buffer
    not yet consumed, the device, and the capture so far. *)
Record TwoWire (D : Type) : Type := mkWire {
  txAddress : Z;
  txBuffer  : list Z;
  rxBuffer  : list Z;
  device    : D;
  capture   : list BusEvent
}.
Arguments mkWire {D}.
Arguments txAddress {D}.
Arguments txBuffer {D}.
Arguments rxBuffer {D}.
Arguments device {D}.
Arguments capture {D}.

(** Computations on the [Wire] object. *)
Definition Bus (D A : Type) : Type := TwoWire D -> A * TwoWire D.

Definition ret {D A} (a : A) : Bus D A := fun w => (a, w).

Definition bind {D A B} (c : Bus D A) (k : A -> Bus D B) : Bus D B :=
  fun w => let (a, w') := c w in k a w'.

Declare Scope bus_scope.
Delimit Scope bus_scope with bus.
Notation "x <- c ;; k" := (bind c (fun x => k))
  (at level 61, c at next level, right associativity) : bus_scope.
Notation "c ;; k" := (bind c (fun _ => k))
  (at level 61, right associativity) : bus_scope.
Local Open Scope bus_scope.

Module Wire.
Section Wire.
Context {D : Type} `{I2CDevice D}.

Definition BUFFER_LENGTH : Z := 32.

Definition beginTransmission (address : Z) : Bus D unit := fun w =>
  (tt, mkWire (u8 address) [] (rxBuffer w) (device w) (capture w)).

(** One byte into the transmit buffer; returns the number of bytes
    taken. *)
Definition write (data : Z) : Bus D Z := fun w =>
  if Z.of_nat (length (txBuffer w)) <? BUFFER_LENGTH
  then (1, mkWire (txAddress w) (txBuffer w ++ [u8 data]) (rxBuffer w)
                  (device w) (capture w))
  else (0, w).

(** Sends the buffered bytes as one write transaction and passes the
    transport's status on. *)
Definition endTransmission (sendStop : bool) : Bus D Z := fun w =>
  let (status, d) := dev_write (txAddress w) (txBuffer w) sendStop (device w) in
  (u8 status,
   mkWire (txAddress w) [] (rxBuffer w) d
          (capture w ++ [EvWrite (txAddress w) (txBuffer w) sendStop])).

(** One read transaction of at most [quantity] bytes into the receive
    buffer; returns the number of bytes received. *)
Definition requestFrom (address quantity : Z) : Bus D Z := fun w =>
  let quantity := Z.min quantity BUFFER_LENGTH in
  let (data, d) := dev_read (u8 address) quantity (device w) in
  let data := map u8 (firstn (Z.to_nat quantity) data) in
  (Z.of_nat (length data),
   mkWire (txAddress w) (txBuffer w) data d
          (capture w ++ [EvRead (u8 address) quantity data])).

(** The next received byte as an [int], or -1 when none is left. *)
Definition read : Bus D Z := fun w =>
  match rxBuffer w with
  | [] => (-1, w)
  | b :: rest =>
      (b, mkWire (txAddress w) (txBuffer w) rest (device w) (capture w))
  end.
End Wire.
End Wire.

(** ** The driver

  One definition per member function of [MAX17048G], statements in source
  order.  Where the source has two [Wire.read()] calls as operands of one
  [+], they are taken left to right, as the layout of the registers (most
  significant byte first) requires.  The [delay(1000)] statements that
  follow a [return] are never reached and have no counterpart here. *)

Module MAX17048G.

(** The object: [_ic] is the variant of the chip, which is also the factor
  on the voltage scale (1 for the 5V part, 2 for the 10V part). *)
Record instance : Type := { _ic : Z }.

Section Driver.
Context {hdr : Header} {dbl : Double} {D : Type} `{I2CDevice D}.
Variable this : instance.

Definition getCellVolt : Bus D double :=
  Wire.beginTransmission MAX1704X_ADDR ;;
  Wire.write MAX1704X_VCELL_ADDR ;;
  Wire.endTransmission true ;;
  Wire.requestFrom MAX1704X_ADDR 2 ;;
  byte0 <- Wire.read ;;
  byte1 <- Wire.read ;;
  ret (dmul (dmul (of_int (Z.shiftl byte0 4 + Z.shiftr byte1 4)) lit_0_00125)
            (of_int (_ic this))).

Definition getSOC : Bus D double :=
  Wire.beginTransmission MAX1704X_ADDR ;;
  Wire.write MAX1704X_SOC_ADDR ;;
  Wire.endTransmission true ;;
  Wire.requestFrom MAX1704X_ADDR 2 ;;
  byte0 <- Wire.read ;;
  byte1 <- Wire.read ;;
  ret (dadd (of_int byte0) (ddiv (of_int byte1) (of_int 256))).

Definition getVersion : Bus D Z :=
  Wire.beginTransmission MAX1704X_ADDR ;;
  Wire.write MAX1704X_VERSION_ADDR ;;
  Wire.endTransmission true ;;
  Wire.requestFrom MAX1704X_ADDR 2 ;;
  byte0 <- Wire.read ;;
  byte1 <- Wire.read ;;
  ret ((Z.shiftl byte0 8 + byte1) mod 65536).

Definition getCompensateValue : Bus D Z :=
  Wire.beginTransmission MAX1704X_ADDR ;;
  Wire.write MAX1704X_RCOMP_ADDR ;;
  Wire.endTransmission true ;;
  Wire.requestFrom MAX1704X_ADDR 1 ;;
  b <- Wire.read ;;
  ret (u8 b).

(** Modelled from the spec: [getCompensation], which [clearAlertInterrupt],
    [sleep] and [wake] call and the translation unit does not define.  The
    spec has it as the single-byte read of the CONFIG high byte (RCOMP). *)
Definition getCompensation : Bus D Z :=
  Wire.beginTransmission MAX1704X_ADDR ;;
  Wire.write MAX1704X_RCOMP_ADDR ;;
  Wire.endTransmission true ;;
  Wire.requestFrom MAX1704X_ADDR 1 ;;
  b <- Wire.read ;;
  ret (u8 b).

Definition getStatus : Bus D Z :=
  Wire.beginTransmission MAX1704X_ADDR ;;
  Wire.write MAX1704X_ATHRD_ADDR ;;
  Wire.endTransmission true ;;
  Wire.requestFrom MAX1704X_ADDR 1 ;;
  b <- Wire.read ;;
  ret (u8 b).

Definition getAlertThreshold : Bus D Z :=
  status <- getStatus ;;
  ret (u8 (Z.land (Z.lnot status) 0x1F + 1)).

Definition setCompensation (compensation : Z) : Bus D Z :=
  status <- getStatus ;;
  Wire.beginTransmission MAX1704X_ADDR ;;
  Wire.write MAX1704X_CONFIG_ADDR ;;
  Wire.write compensation ;;
  Wire.write status ;;
  Wire.endTransmission true.

Definition setAlertThreshold (threshold : Z) : Bus D Z :=
  let threshold :=
    if 32 <? threshold then 32
    else if threshold <? 1 then 1
    else threshold in
  let threshold := u8 (Z.land (Z.lnot threshold + 1) 0x1F) in
  Wire.beginTransmission MAX1704X_ADDR ;;
  Wire.write MAX1704X_CONFIG_ADDR ;;
  Wire.endTransmission false ;;
  Wire.requestFrom MAX1704X_ADDR 2 ;;
  b <- Wire.read ;;
  let compensation := u8 b in
  b <- Wire.read ;;
  let sleepBit := u8 (Z.land b 0x80) in
  Wire.beginTransmission MAX1704X_ADDR ;;
  Wire.write MAX1704X_CONFIG_ADDR ;;
  Wire.write compensation ;;
  Wire.write (Z.lor sleepBit thrd) ;;
  Wire.endTransmission true.

Definition clearAlertInterrupt : Bus D Z :=
  compensation <- getCompensation ;;
  status <- getStatus ;;
  Wire.beginTransmission MAX1704X_ADDR ;;
  Wire.write MAX1704X_CONFIG_ADDR ;;
  Wire.write compensation ;;
  Wire.write (Z.land 0xDF status) ;;
  Wire.endTransmission true.

Definition sleep : Bus D Z :=
  compensation <- getCompensation ;;
  threshold <- getAlertThreshold ;;
  Wire.beginTransmission MAX1704X_ADDR ;;
  Wire.write MAX1704X_CONFIG_ADDR ;;
  Wire.write compensation ;;
  Wire.write (Z.lor 0x80 threshold) ;;
  Wire.endTransmission true.

Definition wake : Bus D Z :=
  compensation <- getCompensation ;;
  threshold <- getAlertThreshold ;;
  Wire.beginTransmission MAX1704X_ADDR ;;
  Wire.write MAX1704X_CONFIG_ADDR ;;
  Wire.write compensation ;;
  Wire.write (Z.land 0x7F threshold) ;;
  Wire.endTransmission true.

Definition sleeping : Bus D bool :=
  status <- getStatus ;;
  ret (Z.land status 0x80 =? 0x80).

Definition quickStart : Bus D Z :=
  Wire.beginTransmission MAX1704X_ADDR ;;
  Wire.write MAX1704X_MODE_ADDR ;;
  Wire.write 0x40 ;;
  Wire.write 0x00 ;;
  Wire.endTransmission true.

Definition reset : Bus D Z :=
  Wire.beginTransmission MAX1704X_ADDR ;;
  Wire.write MAX1704X_COMMAND_ADDR ;;
  Wire.write 0x54 ;;
  Wire.write 0x00 ;;
  Wire.endTransmission true.
End Driver.
End MAX17048G.

(** ** A mock device

    A register file with an address pointer, the usual fake for such a
    chip: the first byte of a write transaction sets the pointer, the bytes
    after it are stored at consecutive addresses, and a read transaction
    answers with the bytes found from the pointer on.  Every transaction is
    acknowledged (status 0). *)

Record RegisterFile : Type := mkRegs {
  pointer : Z;
  regs    : Z -> Z
}.

Definition store (a v : Z) (m : Z -> Z) : Z -> Z :=
  fun x => if x =? a then v else m x.

Fixpoint store_bytes (a : Z) (bytes : list Z) (m : Z -> Z) : Z -> Z :=
  match bytes with
  | [] => m
  | b :: rest => store_bytes (u8 (a + 1)) rest (store a b m)
  end.

Fixpoint load_bytes (n : nat) (a : Z) (m : Z -> Z) : list Z :=
  match n with
  | O => []
  | S n' => m a :: load_bytes n' (u8 (a + 1)) m
  end.

#[export] Instance mock : I2CDevice RegisterFile := {|
  dev_write _ payload _ d :=
    match payload with
    | [] => (0, d)
    | r :: data => (0, mkRegs r (store_bytes r data (regs d)))
    end;
  dev_read _ quantity d :=
    (load_bytes (Z.to_nat quantity) (pointer d) (regs d), d)
|}.

(** A [Wire] object fresh from [Wire.begin()], attached to the mock with
    the CONFIG register holding [(c, s)] at the datasheet's 0x0C, 0x0D and
    every other register zero. *)
Definition config_regs (c s : Z) : Z -> Z :=
  store 0x0C c (store 0x0D s (fun _ => 0)).

Definition fresh_wire (c s : Z) : TwoWire RegisterFile :=
  mkWire 0 [] [] (mkRegs 0 (config_regs c s)) [].

(** The last transaction of a capture. *)
Definition last_event (evs : list BusEvent) : option BusEvent :=
  match rev evs with
  | [] => None
  | e :: _ => Some e
  end.

(** ** A device that does not answer

    Nothing acknowledges the address: every write transaction ends with
    status 2 (address not acknowledged) and every read transaction brings
    no byte. *)

Inductive NoDevice : Type := no_device.

#[export] Instance absent : I2CDevice NoDevice := {|
  dev_write _ _ _ d := (2, d);
  dev_read _ _ d := ([], d)
|}.

Definition dead_wire : TwoWire NoDevice := mkWire 0 [] [] no_device [].

(** ** A device that refuses data

    It acknowledges its address and a register address and refuses every
    data byte: a write transaction of more than one byte ends with status 3
    (data not acknowledged), one of a single byte with status 0.  It holds
    nothing to read. *)

Inductive DeafDevice : Type := deaf_device.

#[export] Instance refusing : I2CDevice DeafDevice := {|
  dev_write _ payload _ d :=
    (match payload with
     | _ :: _ :: _ => 3
     | _ => 0
     end, d);
  dev_read _ _ d := ([], d)
|}.

Definition deaf_wire : TwoWire DeafDevice := mkWire 0 [] [] deaf_device [].

(** ** Vocabulary of the properties *)

Section Exchange.
Context {hdr : Header} {D : Type} `{I2CDevice D}.

(** One write transaction with the given payload, as the device and the
    capture see it. *)
Definition transaction (payload : list Z) (sendStop : bool) : Bus D Z :=
  fun w =>
    let (status, d) :=
      dev_write (u8 MAX1704X_ADDR) payload sendStop (device w) in
    (u8 status,
     mkWire (u8 MAX1704X_ADDR) [] (rxBuffer w) d
            (capture w ++ [EvWrite (u8 MAX1704X_ADDR) payload sendStop])).

(** What the device answers when [quantity] bytes are requested after the
    register pointer has been set to [reg]. *)
Definition answers (reg quantity : Z) (sendStop : bool) (w : TwoWire D)
  : list Z :=
  fst (dev_read (u8 MAX1704X_ADDR) quantity
         (snd (dev_write (u8 MAX1704X_ADDR) [u8 reg] sendStop (device w)))).

End Exchange.

(** The capture of a register read: the register address goes out alone,
    then at most [n] bytes come back. *)
Definition read_only {hdr : Header} (reg n : Z)
  (before after : list BusEvent) : Prop :=
  exists data,
    (length data <= Z.to_nat n)%nat /\
    after = before ++ [EvWrite (u8 MAX1704X_ADDR) [u8 reg] true;
                       EvRead (u8 MAX1704X_ADDR) n data].

(** The two expressions of the alert threshold: the packing computed in
    [setAlertThreshold] once its argument is clamped, and the unpacking of
    [getAlertThreshold]. *)
Definition clamped (threshold : Z) : Z :=
  if 32 <? threshold then 32 else if threshold <? 1 then 1 else threshold.

Definition encode (percent : Z) : Z := Z.land (Z.lnot percent + 1) 0x1F.

Definition decode (status : Z) : Z := Z.land (Z.lnot status) 0x1F + 1.

(** [after] differs from [before] in bit [k] at most, and has it clear. *)
Definition clears_only_bit (k before after : Z) : Prop :=
  Z.testbit after k = false /\
  forall i, i <> k -> Z.testbit after i = Z.testbit before i.

(** A check over all 256 values of a byte. *)
Definition all_bytes (f : Z -> bool) : bool :=
  forallb f (map Z.of_nat (seq 0 256)).

(** * Properties *)

(** ** Bytes *)

Lemma u8_range (z : Z) : is_u8 (u8 z).
Proof. unfold is_u8, u8. apply Z.mod_pos_bound. lia. Qed.

Lemma u8_id (z : Z) : is_u8 z -> u8 z = z.
Proof. unfold is_u8, u8. intros. apply Z.mod_small. assumption. Qed.

Lemma u8_u8 (z : Z) : u8 (u8 z) = u8 z.
Proof. apply u8_id, u8_range. Qed.

Lemma all_bytes_spec (f : Z -> bool) :
  all_bytes f = true -> forall z, is_u8 z -> f z = true.
Proof.
  unfold all_bytes, is_u8. intros Hall z Hz.
  rewrite forallb_forall in Hall. apply Hall.
  apply in_map_iff. exists (Z.to_nat z). split.
  - apply Z2Nat.id. lia.
  - apply in_seq. lia.
Qed.

(** On five bits, complementing is subtracting from 31. *)
Lemma land_lnot_0x1F (z : Z) : Z.land (Z.lnot z) 0x1F = 31 - z mod 32.
Proof.
  change 0x1F with (Z.ones 5). rewrite Z.land_ones by lia.
  unfold Z.lnot. change (2 ^ 5) with 32. change (Z.ones 5) with 31.
  replace (Z.pred (- z)) with (31 - z mod 32 + (- (z / 32) - 1) * 32)
    by (pose proof (Z.div_mod z 32 ltac:(lia)); unfold Z.pred; lia).
  rewrite Z.mod_add by lia. apply Z.mod_small.
  pose proof (Z.mod_pos_bound z 32 ltac:(lia)). lia.
Qed.

Lemma decode_spec (s : Z) : decode s = 32 - s mod 32.
Proof. unfold decode. rewrite land_lnot_0x1F. lia. Qed.

Lemma decode_range (s : Z) : 1 <= decode s <= 32.
Proof. rewrite decode_spec. pose proof (Z.mod_pos_bound s 32 ltac:(lia)). lia. Qed.

Lemma encode_spec (p : Z) : encode p = (- p) mod 32.
Proof.
  unfold encode. change 0x1F with (Z.ones 5). rewrite Z.land_ones by lia.
  unfold Z.lnot. f_equal. lia.
Qed.

(** The packing of line 98 and the unpacking of line 67 are inverse on
    [1, 32], whatever the upper three bits of the status byte hold. *)
Lemma decode_encode (p s : Z) :
  1 <= p <= 32 -> s mod 32 = encode p -> decode s = p.
Proof.
  intros Hp Hs. rewrite decode_spec, Hs, encode_spec.
  destruct (Z.eq_dec p 32) as [-> | Hne]; [reflexivity |].
  replace (- p) with (32 - p + (-1) * 32) by lia.
  rewrite Z.mod_add by lia. rewrite Z.mod_small by lia. lia.
Qed.

(** The encodings the boundary arguments would get: 0 is packed as 1 is,
    and anything above 32 as 32 is. *)
Lemma encode_clamped_boundaries :
  encode (clamped 0) = encode 1 /\ encode 1 = 0x1F /\
  encode (clamped 33) = encode 32 /\ encode 32 = 0x00 /\
  forall p, 32 < p -> clamped p = 32.
Proof.
  repeat split. intros p Hp. unfold clamped.
  destruct (Z.ltb_spec 32 p); [reflexivity | lia].
Qed.

(** No single low byte carries the sleep bit of [s] together with the
    encoding of 1 and with the encoding of 2: a function that writes the
    same byte for every argument writes the wrong one for 1 or for 2. *)
Lemma no_byte_for_1_and_2 (lo s : Z) :
  ~ (lo = Z.lor (Z.land s 0x80) (encode (clamped 1)) /\
     lo = Z.lor (Z.land s 0x80) (encode (clamped 2))).
Proof.
  intros [H1 H2]. rewrite H1 in H2.
  apply (f_equal (fun z => Z.testbit z 0)) in H2.
  rewrite !Z.lor_spec, !Z.land_spec in H2.
  change (Z.testbit 0x80 0) with false in H2.
  rewrite andb_false_r in H2. discriminate H2.
Qed.

Lemma clamped_range (p : Z) : 1 <= clamped p <= 32.
Proof.
  unfold clamped.
  destruct (Z.ltb_spec 32 p); [lia |].
  destruct (Z.ltb_spec p 1); lia.
Qed.

(** An operand shifted left by [n] and one below [2 ^ n] share no bit, so
    joining them with [|] adds them. *)
Lemma lor_shiftl_low (a b n : Z) :
  0 <= n -> 0 <= b < 2 ^ n -> Z.lor (Z.shiftl a n) b = Z.shiftl a n + b.
Proof.
  intros Hn Hb.
  assert (Hdisj : Z.land (Z.shiftl a n) b = 0).
  { apply Z.bits_inj'. intros i Hi.
    rewrite Z.land_spec, Z.bits_0.
    destruct (Z.lt_ge_cases i n) as [Hlt | Hge].
    - rewrite Z.shiftl_spec_low by assumption. reflexivity.
    - destruct (Z.eq_dec b 0) as [-> | Hb0].
      + rewrite Z.bits_0. apply andb_false_r.
      + rewrite (Z.bits_above_log2 b i); [apply andb_false_r | lia |].
        apply Z.lt_le_trans with n; [| assumption].
        apply Z.log2_lt_pow2; lia. }
  rewrite <- Z.lxor_lor by assumption.
  symmetry. apply Z.add_nocarry_lxor. assumption.
Qed.

(** The reading of VCELL: the upper twelve bits of the big-endian word. *)
Lemma vcell_reading (byte0 byte1 : Z) :
  is_u8 byte1 ->
  Z.shiftl byte0 4 + Z.shiftr byte1 4 =
  Z.shiftr (Z.lor (Z.shiftl byte0 8) byte1) 4.
Proof.
  unfold is_u8. intros Hb.
  rewrite Z.shiftr_lor, Z.shiftr_shiftl_l by lia.
  change (8 - 4) with 4. symmetry. apply lor_shiftl_low; [lia |].
  rewrite Z.shiftr_div_pow2 by lia. change (2 ^ 4) with 16.
  split.
  - apply Z.div_pos; lia.
  - apply Z.div_lt_upper_bound; lia.
Qed.

(** A byte has no bit above the seventh. *)
Lemma u8_testbit_high (s i : Z) : is_u8 s -> 8 <= i -> Z.testbit s i = false.
Proof.
  unfold is_u8. intros Hs Hi.
  rewrite <- (Z.mod_small s (2 ^ 8)) by (change (2 ^ 8) with 256; lia).
  apply Z.mod_pow2_bits_high. lia.
Qed.

(** Masking a byte leaves a byte. *)
Lemma land_u8 (s m : Z) : is_u8 s -> is_u8 (Z.land s m).
Proof.
  unfold is_u8. intros Hs.
  rewrite <- (Z.mod_small s (2 ^ 8)) by (change (2 ^ 8) with 256; lia).
  rewrite <- Z.land_ones by lia.
  rewrite <- Z.land_assoc, (Z.land_comm (Z.ones 8) m), Z.land_assoc.
  rewrite Z.land_ones by lia. change (2 ^ 8) with 256.
  apply Z.mod_pos_bound. lia.
Qed.

(** Masking a byte with 0xDF clears bit 5 and nothing else. *)
Lemma land_0xDF_bits (s : Z) : is_u8 s -> clears_only_bit 5 s (Z.land s 0xDF).
Proof.
  intros Hs. split.
  - rewrite Z.land_spec. apply andb_false_r.
  - intros i Hi. rewrite Z.land_spec.
    destruct (Z.lt_ge_cases i 0) as [Hneg | Hpos].
    + rewrite !(Z.testbit_neg_r _ i) by assumption. reflexivity.
    + destruct (Z.lt_ge_cases i 8) as [Hlo | Hhi].
      * assert (Hcases : i = 0 \/ i = 1 \/ i = 2 \/ i = 3 \/ i = 4 \/
                         i = 6 \/ i = 7) by lia.
        destruct Hcases as [-> | [-> | [-> | [-> | [-> | [-> | ->]]]]]];
          apply andb_true_r.
      * rewrite (u8_testbit_high s i) by assumption. reflexivity.
Qed.

(** ** The driver on any device *)

Ltac bus_unfold :=
  unfold bind, ret, Wire.beginTransmission, Wire.write, Wire.endTransmission,
    Wire.requestFrom, Wire.read.

Ltac bus_simpl :=
  cbn;
  change (Pos.to_nat 1) with 1%nat;
  change (Pos.to_nat 2) with 2%nat;
  cbn.

Section BusFacts.
Context {hdr : Header} {D : Type} `{I2CDevice D}.
Implicit Type w : TwoWire D.

Lemma capture_transaction (payload : list Z) (sendStop : bool) w :
  capture (snd (transaction payload sendStop w)) =
  capture w ++ [EvWrite (u8 MAX1704X_ADDR) payload sendStop].
Proof. unfold transaction. destruct (dev_write _ _ _ _). reflexivity. Qed.

(** A single-byte read: [reg] goes out, one byte comes back. *)
Lemma getStatus_answers w (s : Z) :
  answers MAX1704X_ATHRD_ADDR 1 true w = [s] ->
  fst (MAX17048G.getStatus w) = u8 s /\
  capture (snd (MAX17048G.getStatus w)) =
  capture w ++ [EvWrite (u8 MAX1704X_ADDR) [u8 MAX1704X_ATHRD_ADDR] true;
                EvRead (u8 MAX1704X_ADDR) 1 [u8 s]].
Proof.
  unfold answers, MAX17048G.getStatus. bus_unfold. bus_simpl.
  destruct (dev_write _ _ _ _) as [st d1]. bus_simpl.
  destruct (dev_read _ _ _) as [data d2]. bus_simpl. intros ->. bus_simpl.
  rewrite <- app_assoc, u8_u8. split; reflexivity.
Qed.

Lemma getCompensation_answers w (c : Z) :
  answers MAX1704X_RCOMP_ADDR 1 true w = [c] ->
  fst (MAX17048G.getCompensation w) = u8 c /\
  capture (snd (MAX17048G.getCompensation w)) =
  capture w ++ [EvWrite (u8 MAX1704X_ADDR) [u8 MAX1704X_RCOMP_ADDR] true;
                EvRead (u8 MAX1704X_ADDR) 1 [u8 c]].
Proof.
  unfold answers, MAX17048G.getCompensation. bus_unfold. bus_simpl.
  destruct (dev_write _ _ _ _) as [st d1]. bus_simpl.
  destruct (dev_read _ _ _) as [data d2]. bus_simpl. intros ->. bus_simpl.
  rewrite <- app_assoc, u8_u8. split; reflexivity.
Qed.

(** [getCompensation] is the function defined as [getCompensateValue]. *)
Lemma getCompensation_getCompensateValue w :
  MAX17048G.getCompensation w = MAX17048G.getCompensateValue w.
Proof. reflexivity. Qed.

Lemma getStatus_byte w : is_u8 (fst (MAX17048G.getStatus w)).
Proof.
  unfold MAX17048G.getStatus, bind, ret.
  repeat match goal with
         | |- context [let (_, _) := ?e in _] => destruct e
         end.
  apply u8_range.
Qed.

Lemma getCompensation_byte w : is_u8 (fst (MAX17048G.getCompensation w)).
Proof.
  unfold MAX17048G.getCompensation, bind, ret.
  repeat match goal with
         | |- context [let (_, _) := ?e in _] => destruct e
         end.
  apply u8_range.
Qed.

Lemma getAlertThreshold_decode w :
  MAX17048G.getAlertThreshold w =
  (decode (fst (MAX17048G.getStatus w)), snd (MAX17048G.getStatus w)).
Proof.
  unfold MAX17048G.getAlertThreshold, bind, ret.
  destruct (MAX17048G.getStatus w) as [s w1]. cbn [fst snd].
  f_equal. apply u8_id.
  pose proof (decode_range s). unfold is_u8, decode in *. lia.
Qed.

Lemma sleeping_status w :
  fst (MAX17048G.sleeping w) =
  (Z.land (fst (MAX17048G.getStatus w)) 0x80 =? 0x80).
Proof.
  unfold MAX17048G.sleeping, bind, ret.
  destruct (MAX17048G.getStatus w) as [s w1]. reflexivity.
Qed.

(** The operations that write, as one transaction after their reads. *)
Lemma setCompensation_run (compensation : Z) w :
  MAX17048G.setCompensation compensation w =
  transaction
    [u8 MAX1704X_CONFIG_ADDR; u8 compensation; fst (MAX17048G.getStatus w)]
    true (snd (MAX17048G.getStatus w)).
Proof.
  rewrite <- (u8_id (fst (MAX17048G.getStatus w))) by apply getStatus_byte.
  unfold MAX17048G.setCompensation, bind at 1.
  destruct (MAX17048G.getStatus w) as [s w1]. reflexivity.
Qed.

Lemma clearAlertInterrupt_run w :
  let w1 := snd (MAX17048G.getCompensation w) in
  MAX17048G.clearAlertInterrupt w =
  transaction
    [u8 MAX1704X_CONFIG_ADDR; fst (MAX17048G.getCompensation w);
     u8 (Z.land 0xDF (fst (MAX17048G.getStatus w1)))]
    true (snd (MAX17048G.getStatus w1)).
Proof.
  intros w1. subst w1.
  rewrite <- (u8_id (fst (MAX17048G.getCompensation w)))
    by apply getCompensation_byte.
  unfold MAX17048G.clearAlertInterrupt, bind at 1.
  destruct (MAX17048G.getCompensation w) as [c w1]. unfold bind at 1.
  cbn [fst snd].
  destruct (MAX17048G.getStatus w1) as [s w2]. reflexivity.
Qed.

Lemma sleep_run w :
  let w1 := snd (MAX17048G.getCompensation w) in
  MAX17048G.sleep w =
  transaction
    [u8 MAX1704X_CONFIG_ADDR; fst (MAX17048G.getCompensation w);
     u8 (Z.lor 0x80 (decode (fst (MAX17048G.getStatus w1))))]
    true (snd (MAX17048G.getStatus w1)).
Proof.
  intros w1. subst w1.
  rewrite <- (u8_id (fst (MAX17048G.getCompensation w)))
    by apply getCompensation_byte.
  unfold MAX17048G.sleep, bind at 1.
  destruct (MAX17048G.getCompensation w) as [c w1]. unfold bind at 1.
  rewrite getAlertThreshold_decode. reflexivity.
Qed.

Lemma wake_run w :
  let w1 := snd (MAX17048G.getCompensation w) in
  MAX17048G.wake w =
  transaction
    [u8 MAX1704X_CONFIG_ADDR; fst (MAX17048G.getCompensation w);
     u8 (Z.land 0x7F (decode (fst (MAX17048G.getStatus w1))))]
    true (snd (MAX17048G.getStatus w1)).
Proof.
  intros w1. subst w1.
  rewrite <- (u8_id (fst (MAX17048G.getCompensation w)))
    by apply getCompensation_byte.
  unfold MAX17048G.wake, bind at 1.
  destruct (MAX17048G.getCompensation w) as [c w1]. unfold bind at 1.
  rewrite getAlertThreshold_decode. reflexivity.
Qed.

End BusFacts.

(** ** Claims about the driver on any device *)

(** C1.  What [setAlertThreshold] writes back.  When the device answers
    the two-byte CONFIG read with [(c, s)], the function performs that read
    and then one write transaction to CONFIG whose high byte is [c] and
    whose low byte is [(s & 0x80) | thrd].  The sleep bit is the only bit
    taken from [s]; the rest of the low byte comes from [thrd], and the
    encoding the function computed from its argument is not in it. *)
Theorem setAlertThreshold_writes_thrd
  {hdr : Header} {D : Type} `{I2CDevice D}
  (threshold c s : Z) (w : TwoWire D) :
  is_u8 c -> is_u8 s ->
  answers MAX1704X_CONFIG_ADDR 2 false w = [c; s] ->
  capture (snd (MAX17048G.setAlertThreshold threshold w)) =
  capture w ++
  [EvWrite (u8 MAX1704X_ADDR) [u8 MAX1704X_CONFIG_ADDR] false;
   EvRead (u8 MAX1704X_ADDR) 2 [c; s];
   EvWrite (u8 MAX1704X_ADDR)
     [u8 MAX1704X_CONFIG_ADDR; c; u8 (Z.lor (Z.land s 0x80) thrd)] true].
Proof.
  intros Hc Hs.
  unfold answers, MAX17048G.setAlertThreshold. bus_unfold. bus_simpl.
  destruct (dev_write _ _ _ _) as [st d1]. bus_simpl.
  destruct (dev_read _ _ _) as [data d2]. bus_simpl. intros ->. bus_simpl.
  destruct (dev_write _ _ _ _) as [st' d3]. bus_simpl.
  rewrite <- !app_assoc. rewrite !u8_u8, !(u8_id c), !(u8_id s) by assumption.
  rewrite (u8_id (Z.land s 128)) by (apply land_u8; assumption).
  reflexivity.
Qed.

(** C3.  The argument of [setAlertThreshold] does not reach the bus: the
    function has the same result and the same effect for any two
    arguments, so for 0 and 1, and for 33 and 32, but for 1 and 32 just as
    well.  The clamping and the encoding are computed and then dropped. *)
Theorem setAlertThreshold_argument_unused
  {hdr : Header} {D : Type} `{I2CDevice D}
  (threshold threshold' : Z) (w : TwoWire D) :
  MAX17048G.setAlertThreshold threshold w =
  MAX17048G.setAlertThreshold threshold' w.
Proof. reflexivity. Qed.

(** C4.  When the device answers the two-byte VCELL read with
    [(byte0, byte1)], [getCellVolt] returns
    [((byte0 << 4) + (byte1 >> 4)) * 0.00125 * _ic], and the integer factor
    is the big-endian word [(byte0 << 8) | byte1] shifted right by four. *)
Theorem getCellVolt_scaled_reading
  {hdr : Header} {dbl : Double} {D : Type} `{I2CDevice D}
  (this : MAX17048G.instance) (byte0 byte1 : Z) (w : TwoWire D) :
  is_u8 byte0 -> is_u8 byte1 ->
  answers MAX1704X_VCELL_ADDR 2 true w = [byte0; byte1] ->
  fst (MAX17048G.getCellVolt this w) =
    dmul (dmul (of_int (Z.shiftl byte0 4 + Z.shiftr byte1 4)) lit_0_00125)
         (of_int (MAX17048G._ic this)) /\
  fst (MAX17048G.getCellVolt this w) =
    dmul (dmul (of_int (Z.shiftr (Z.lor (Z.shiftl byte0 8) byte1) 4))
               lit_0_00125)
         (of_int (MAX17048G._ic this)).
Proof.
  intros Hb0 Hb1.
  rewrite <- (vcell_reading byte0 byte1 Hb1).
  unfold answers, MAX17048G.getCellVolt. bus_unfold. bus_simpl.
  destruct (dev_write _ _ _ _) as [st d1]. bus_simpl.
  destruct (dev_read _ _ _) as [data d2]. bus_simpl. intros ->. bus_simpl.
  rewrite (u8_id byte0), (u8_id byte1) by assumption.
  split; reflexivity.
Qed.

(** C5.  When the device answers the status read with [s],
    [setCompensation value] is that read followed by one write transaction
    to CONFIG with the two bytes [(value, s)]: the device is handed the
    payload (CONFIG address, [value], [s]) in the state the read left it
    in, the status of that transaction is the result, and the bus shows the
    status read and this one write.  The status byte goes back as it came
    and the compensation byte is [value]. *)
Theorem setCompensation_keeps_status
  {hdr : Header} {D : Type} `{I2CDevice D}
  (value s : Z) (w : TwoWire D) :
  is_u8 value -> is_u8 s ->
  answers MAX1704X_ATHRD_ADDR 1 true w = [s] ->
  MAX17048G.setCompensation value w =
    transaction [u8 MAX1704X_CONFIG_ADDR; value; s] true
      (snd (MAX17048G.getStatus w)) /\
  device (snd (MAX17048G.setCompensation value w)) =
    snd (dev_write (u8 MAX1704X_ADDR) [u8 MAX1704X_CONFIG_ADDR; value; s]
           true (device (snd (MAX17048G.getStatus w)))) /\
  fst (MAX17048G.setCompensation value w) =
    u8 (fst (dev_write (u8 MAX1704X_ADDR)
               [u8 MAX1704X_CONFIG_ADDR; value; s]
               true (device (snd (MAX17048G.getStatus w))))) /\
  capture (snd (MAX17048G.setCompensation value w)) =
  capture w ++
  [EvWrite (u8 MAX1704X_ADDR) [u8 MAX1704X_ATHRD_ADDR] true;
   EvRead (u8 MAX1704X_ADDR) 1 [s];
   EvWrite (u8 MAX1704X_ADDR) [u8 MAX1704X_CONFIG_ADDR; value; s] true].
Proof.
  intros Hv Hs Hans.
  destruct (getStatus_answers w s Hans) as [Hst Hcap].
  rewrite (u8_id s Hs) in Hst, Hcap.
  assert (Hrun : MAX17048G.setCompensation value w =
                 transaction [u8 MAX1704X_CONFIG_ADDR; value; s] true
                   (snd (MAX17048G.getStatus w))).
  { rewrite setCompensation_run, Hst.
    rewrite (u8_id value) by assumption. reflexivity. }
  split; [exact Hrun |].
  rewrite Hrun, capture_transaction, Hcap. unfold transaction.
  destruct (dev_write _ _ _ _) as [st d]. cbn [fst snd device].
  repeat split. rewrite <- app_assoc. reflexivity.
Qed.

(** C6, as the code has it.  When the device answers the two single-byte
    reads with [c] and [s], [clearAlertInterrupt] performs them and then one
    write transaction to CONFIG with the two bytes [(c, s & 0xDF)]: the
    function is that transaction on the state the reads left, device and
    result included.  The low byte written differs from [s] in bit 5 at
    most, which is clear: bit 6, bit 7 and bits 4..0 are those of [s].  For
    [s = 0x7F] it is [0x5F]. *)
Theorem clearAlertInterrupt_clears_bit5
  {hdr : Header} {D : Type} `{I2CDevice D}
  (c s : Z) (w : TwoWire D) :
  is_u8 c -> is_u8 s ->
  answers MAX1704X_RCOMP_ADDR 1 true w = [c] ->
  answers MAX1704X_ATHRD_ADDR 1 true (snd (MAX17048G.getCompensation w)) = [s] ->
  MAX17048G.clearAlertInterrupt w =
    transaction [u8 MAX1704X_CONFIG_ADDR; c; Z.land s 0xDF] true
      (snd (MAX17048G.getStatus (snd (MAX17048G.getCompensation w)))) /\
  capture (snd (MAX17048G.clearAlertInterrupt w)) =
  capture w ++
  [EvWrite (u8 MAX1704X_ADDR) [u8 MAX1704X_RCOMP_ADDR] true;
   EvRead (u8 MAX1704X_ADDR) 1 [c];
   EvWrite (u8 MAX1704X_ADDR) [u8 MAX1704X_ATHRD_ADDR] true;
   EvRead (u8 MAX1704X_ADDR) 1 [s];
   EvWrite (u8 MAX1704X_ADDR)
     [u8 MAX1704X_CONFIG_ADDR; c; Z.land s 0xDF] true] /\
  clears_only_bit 5 s (Z.land s 0xDF) /\
  (s = 0x7F -> Z.land s 0xDF = 0x5F).
Proof.
  intros Hc Hs Hansc Hanss.
  destruct (getCompensation_answers w c Hansc) as [Hcv Hcapc].
  destruct (getStatus_answers _ s Hanss) as [Hsv Hcaps].
  split; [| split; [| split]].
  - rewrite clearAlertInterrupt_run. cbv zeta. rewrite Hcv, Hsv.
    rewrite (u8_id c), (u8_id s) by assumption.
    rewrite (Z.land_comm 0xDF s).
    rewrite (u8_id (Z.land s 0xDF)) by (apply land_u8; assumption).
    reflexivity.
  - rewrite clearAlertInterrupt_run. cbv zeta.
    rewrite capture_transaction, Hcaps, Hcapc, Hcv, Hsv.
    rewrite (u8_id c), (u8_id s) by assumption.
    rewrite (Z.land_comm 0xDF s).
    rewrite (u8_id (Z.land s 0xDF)) by (apply land_u8; assumption).
    rewrite <- !app_assoc. reflexivity.
  - apply land_0xDF_bits. assumption.
  - intros ->. reflexivity.
Qed.

(** C7.  [quickStart] is one write transaction whose payload is the MODE
    register address followed by 0x40, 0x00; [reset] is one write
    transaction whose payload is the COMMAND register address followed by
    0x54, 0x00.  Nothing else goes over the bus. *)
Theorem quickStart_reset_payloads
  {hdr : Header} {D : Type} `{I2CDevice D} (w : TwoWire D) :
  MAX17048G.quickStart w =
    transaction [u8 MAX1704X_MODE_ADDR; 0x40; 0x00] true w /\
  capture (snd (MAX17048G.quickStart w)) =
    capture w ++
    [EvWrite (u8 MAX1704X_ADDR) [u8 MAX1704X_MODE_ADDR; 0x40; 0x00] true] /\
  MAX17048G.reset w =
    transaction [u8 MAX1704X_COMMAND_ADDR; 0x54; 0x00] true w /\
  capture (snd (MAX17048G.reset w)) =
    capture w ++
    [EvWrite (u8 MAX1704X_ADDR) [u8 MAX1704X_COMMAND_ADDR; 0x54; 0x00] true].
Proof.
  assert (Hq : MAX17048G.quickStart w =
               transaction [u8 MAX1704X_MODE_ADDR; 0x40; 0x00] true w)
    by reflexivity.
  assert (Hr : MAX17048G.reset w =
               transaction [u8 MAX1704X_COMMAND_ADDR; 0x54; 0x00] true w)
    by reflexivity.
  repeat split; try assumption.
  - rewrite Hq. apply capture_transaction.
  - rewrite Hr. apply capture_transaction.
Qed.

(** C9.  [getAlertThreshold] returns the decoding [(~s & 0x1F) + 1] of the
    status byte [s] it reads, and that value is at least 1 and at most 32,
    for every [s]. *)
Theorem getAlertThreshold_range
  {hdr : Header} {D : Type} `{I2CDevice D} (w : TwoWire D) :
  fst (MAX17048G.getAlertThreshold w) =
    Z.land (Z.lnot (fst (MAX17048G.getStatus w))) 0x1F + 1 /\
  1 <= fst (MAX17048G.getAlertThreshold w) <= 32 /\
  forall s : Z, 1 <= decode s <= 32.
Proof.
  rewrite getAlertThreshold_decode. cbn [fst].
  split; [reflexivity |]. split; [apply decode_range |].
  intros s. apply decode_range.
Qed.

(** ** The bytes [sleep] and [wake] build from a threshold *)

Lemma thresholds_check (f : Z -> bool) :
  all_bytes (fun p => implb ((1 <=? p) && (p <=? 32)) (f p)) = true ->
  forall p, 1 <= p <= 32 -> f p = true.
Proof.
  intros Hall p Hp.
  assert (Hb : is_u8 p) by (unfold is_u8; lia).
  pose proof (all_bytes_spec _ Hall p Hb) as Hf. cbn beta in Hf.
  destruct (Z.leb_spec 1 p); [| lia].
  destruct (Z.leb_spec p 32); [| lia].
  exact Hf.
Qed.

Lemma sleep_byte (p : Z) :
  1 <= p <= 32 ->
  u8 (Z.lor 0x80 p) = Z.lor 0x80 p /\
  Z.testbit (Z.lor 0x80 p) 7 = true /\
  Z.land (Z.lor 0x80 p) 0x80 = 0x80 /\
  Z.lor 0x80 p mod 32 = p mod 32.
Proof.
  intros Hp.
  pose proof (thresholds_check
    (fun p => (u8 (Z.lor 0x80 p) =? Z.lor 0x80 p) &&
              Z.testbit (Z.lor 0x80 p) 7 &&
              (Z.land (Z.lor 0x80 p) 0x80 =? 0x80) &&
              (Z.lor 0x80 p mod 32 =? p mod 32))
    ltac:(vm_compute; reflexivity) p Hp) as Hf.
  cbn beta in Hf. rewrite !andb_true_iff, !Z.eqb_eq in Hf. tauto.
Qed.

Lemma wake_byte (p : Z) :
  1 <= p <= 32 ->
  u8 (Z.land 0x7F p) = p /\
  Z.land 0x7F p = p /\
  Z.testbit p 7 = false /\
  Z.land p 0x80 = 0.
Proof.
  intros Hp.
  pose proof (thresholds_check
    (fun p => (u8 (Z.land 0x7F p) =? p) &&
              (Z.land 0x7F p =? p) &&
              negb (Z.testbit p 7) &&
              (Z.land p 0x80 =? 0))
    ltac:(vm_compute; reflexivity) p Hp) as Hf.
  cbn beta in Hf.
  rewrite !andb_true_iff, !Z.eqb_eq, negb_true_iff in Hf. tauto.
Qed.

Lemma store_same (a v : Z) (m : Z -> Z) : store a v m a = v.
Proof. unfold store. rewrite Z.eqb_refl. reflexivity. Qed.

(** ** The driver on the mock device *)

Section MockFacts.
Context {hdr : Header}.
Implicit Type w : TwoWire RegisterFile.

Lemma mock_transaction (r : Z) (data : list Z) (sendStop : bool) w :
  transaction (r :: data) sendStop w =
  (0, mkWire (u8 MAX1704X_ADDR) [] (rxBuffer w)
        (mkRegs r (store_bytes r data (regs (device w))))
        (capture w ++ [EvWrite (u8 MAX1704X_ADDR) (r :: data) sendStop])).
Proof. reflexivity. Qed.

Lemma mock_getStatus w :
  MAX17048G.getStatus w =
  (u8 (regs (device w) (u8 MAX1704X_ATHRD_ADDR)),
   mkWire (u8 MAX1704X_ADDR) [] []
     (mkRegs (u8 MAX1704X_ATHRD_ADDR) (regs (device w)))
     (capture w ++
      [EvWrite (u8 MAX1704X_ADDR) [u8 MAX1704X_ATHRD_ADDR] true;
       EvRead (u8 MAX1704X_ADDR) 1
         [u8 (regs (device w) (u8 MAX1704X_ATHRD_ADDR))]])).
Proof.
  unfold MAX17048G.getStatus. bus_unfold. bus_simpl.
  rewrite <- app_assoc, u8_u8. reflexivity.
Qed.

Lemma mock_getCompensation w :
  MAX17048G.getCompensation w =
  (u8 (regs (device w) (u8 MAX1704X_RCOMP_ADDR)),
   mkWire (u8 MAX1704X_ADDR) [] []
     (mkRegs (u8 MAX1704X_RCOMP_ADDR) (regs (device w)))
     (capture w ++
      [EvWrite (u8 MAX1704X_ADDR) [u8 MAX1704X_RCOMP_ADDR] true;
       EvRead (u8 MAX1704X_ADDR) 1
         [u8 (regs (device w) (u8 MAX1704X_RCOMP_ADDR))]])).
Proof.
  unfold MAX17048G.getCompensation. bus_unfold. bus_simpl.
  rewrite <- app_assoc, u8_u8. reflexivity.
Qed.

(** What the mock holds once CONFIG has been written: the status register
    echoes the low byte. *)
Lemma mock_echo (c lo : Z) w :
  u8 MAX1704X_ATHRD_ADDR = u8 (u8 MAX1704X_CONFIG_ADDR + 1) ->
  fst (MAX17048G.getStatus
         (snd (transaction [u8 MAX1704X_CONFIG_ADDR; c; lo] true w))) = u8 lo.
Proof.
  intros Haddr. rewrite mock_transaction, mock_getStatus. cbn.
  rewrite Haddr, store_same. reflexivity.
Qed.

Lemma last_event_app (evs : list BusEvent) (e : BusEvent) :
  last_event (evs ++ [e]) = Some e.
Proof. unfold last_event. rewrite rev_app_distr. reflexivity. Qed.

End MockFacts.

(** ** Claims about the driver on the mock device *)

(** C8.  On the mock, whose status register sits right after the CONFIG
    high byte, and from any state of it: the low byte [sleep] writes has
    bit 7 set and [sleeping] returns [true] right after [sleep]; the low
    byte [wake] writes has bit 7 clear and [sleeping] returns [false] right
    after [wake]. *)
Theorem sleeping_after_sleep_and_wake
  {hdr : Header} (w : TwoWire RegisterFile) :
  u8 MAX1704X_ATHRD_ADDR = u8 (u8 MAX1704X_CONFIG_ADDR + 1) ->
  (exists c lo,
     last_event (capture (snd (MAX17048G.sleep w))) =
       Some (EvWrite (u8 MAX1704X_ADDR) [u8 MAX1704X_CONFIG_ADDR; c; lo] true)
     /\ Z.testbit lo 7 = true) /\
  fst (MAX17048G.sleeping (snd (MAX17048G.sleep w))) = true /\
  (exists c lo,
     last_event (capture (snd (MAX17048G.wake w))) =
       Some (EvWrite (u8 MAX1704X_ADDR) [u8 MAX1704X_CONFIG_ADDR; c; lo] true)
     /\ Z.testbit lo 7 = false) /\
  fst (MAX17048G.sleeping (snd (MAX17048G.wake w))) = false.
Proof.
  intros Haddr.
  set (w1 := snd (MAX17048G.getCompensation w)).
  pose proof (decode_range (fst (MAX17048G.getStatus w1))) as Hp.
  destruct (sleep_byte _ Hp) as (Hs8 & Hs7 & Hsland & _).
  destruct (wake_byte _ Hp) as (Hw8 & _ & Hw7 & Hwland).
  repeat split.
  - rewrite sleep_run. fold w1. rewrite capture_transaction, last_event_app.
    do 2 eexists. split; [reflexivity |]. rewrite Hs8. exact Hs7.
  - rewrite sleeping_status, sleep_run. fold w1.
    rewrite (mock_echo _ _ _ Haddr), u8_u8, Hs8, Hsland. reflexivity.
  - rewrite wake_run. fold w1. rewrite capture_transaction, last_event_app.
    do 2 eexists. split; [reflexivity |]. rewrite Hw8. exact Hw7.
  - rewrite sleeping_status, wake_run. fold w1.
    rewrite (mock_echo _ _ _ Haddr), u8_u8, Hw8, Hwland. reflexivity.
Qed.

(** C10, as the code has it.  On the mock, let [p] be the threshold
    decoded before the call.  [sleep] writes [0x80 | p] and [wake] writes
    [0x7F & p = p] as the CONFIG low byte: the decoded value, not its
    five-bit encoding.  For [p] in [1, 31] the threshold decoded afterwards
    is [32 - p]; it is [p] again at [p = 16] and at no other [p].  For
    [p = 32] the byte written has bit 5 set. *)
Theorem sleep_wake_write_decoded_threshold
  {hdr : Header} (w : TwoWire RegisterFile) (p : Z) :
  u8 MAX1704X_ATHRD_ADDR = u8 (u8 MAX1704X_CONFIG_ADDR + 1) ->
  fst (MAX17048G.getAlertThreshold w) = p ->
  (exists c,
     last_event (capture (snd (MAX17048G.sleep w))) =
       Some (EvWrite (u8 MAX1704X_ADDR)
               [u8 MAX1704X_CONFIG_ADDR; c; Z.lor 0x80 p] true)) /\
  (exists c,
     last_event (capture (snd (MAX17048G.wake w))) =
       Some (EvWrite (u8 MAX1704X_ADDR)
               [u8 MAX1704X_CONFIG_ADDR; c; p] true)) /\
  (1 <= p <= 31 ->
     fst (MAX17048G.getAlertThreshold (snd (MAX17048G.sleep w))) = 32 - p /\
     fst (MAX17048G.getAlertThreshold (snd (MAX17048G.wake w))) = 32 - p /\
     (fst (MAX17048G.getAlertThreshold (snd (MAX17048G.sleep w))) = p <->
      p = 16) /\
     (fst (MAX17048G.getAlertThreshold (snd (MAX17048G.wake w))) = p <->
      p = 16)) /\
  (p = 32 ->
     Z.testbit (Z.lor 0x80 p) 5 = true /\ Z.testbit p 5 = true).
Proof.
  intros Haddr Hthr.
  set (w1 := snd (MAX17048G.getCompensation w)).
  assert (Hsame : decode (fst (MAX17048G.getStatus w1)) = p).
  { rewrite <- Hthr, getAlertThreshold_decode. cbn [fst].
    subst w1. rewrite mock_getCompensation, !mock_getStatus. reflexivity. }
  assert (Hp : 1 <= p <= 32) by (rewrite <- Hsame; apply decode_range).
  destruct (sleep_byte _ Hp) as (Hs8 & _ & _ & Hsmod).
  destruct (wake_byte _ Hp) as (Hw8 & _ & _ & _).
  split; [| split; [| split]].
  - rewrite sleep_run. fold w1. rewrite capture_transaction, last_event_app.
    rewrite Hsame, Hs8. eexists. reflexivity.
  - rewrite wake_run. fold w1. rewrite capture_transaction, last_event_app.
    rewrite Hsame, Hw8. eexists. reflexivity.
  - intros Hp31.
    assert (Hsleep :
              fst (MAX17048G.getAlertThreshold (snd (MAX17048G.sleep w))) =
              32 - p).
    { rewrite getAlertThreshold_decode. cbn [fst].
      rewrite sleep_run. fold w1.
      rewrite (mock_echo _ _ _ Haddr), u8_u8, Hsame, Hs8.
      rewrite decode_spec, Hsmod, Z.mod_small by lia. reflexivity. }
    assert (Hwake :
              fst (MAX17048G.getAlertThreshold (snd (MAX17048G.wake w))) =
              32 - p).
    { rewrite getAlertThreshold_decode. cbn [fst].
      rewrite wake_run. fold w1.
      rewrite (mock_echo _ _ _ Haddr), u8_u8, Hsame, Hw8.
      rewrite decode_spec, Z.mod_small by lia. reflexivity. }
    rewrite Hsleep, Hwake. repeat split; lia.
  - intros ->. split; reflexivity.
Qed.

(** C2.  On the mock with the datasheet's register map: the threshold read
    back after [setAlertThreshold p] is the decoding of [(s & 0x80) | thrd],
    where [s] is the status byte held before.  It is the same for every
    [p], so it is [p] for one value of [p] at most. *)
Theorem getAlertThreshold_after_setAlertThreshold (t p c s : Z) :
  fst (@MAX17048G.getAlertThreshold (datasheet t) _ _
         (snd (@MAX17048G.setAlertThreshold (datasheet t) _ _ p
                 (fresh_wire c s)))) =
  decode (u8 (Z.lor (u8 (Z.land (u8 s) 0x80)) t)).
Proof.
  rewrite getAlertThreshold_decode. cbn [fst]. rewrite mock_getStatus.
  cbn [fst].
  change (regs (device (snd (@MAX17048G.setAlertThreshold (datasheet t) _ _ p
                               (fresh_wire c s))))
            (u8 (@MAX1704X_ATHRD_ADDR (datasheet t))))
    with (u8 (Z.lor (u8 (Z.land (u8 s) 0x80)) t)).
  rewrite u8_u8. reflexivity.
Qed.

(** C6, as the claim has it, fails: with CONFIG holding [(0x97, 0x7F)] the
    low byte written by [clearAlertInterrupt] still has bit 6 set and has
    lost bit 5, so it is not the status byte with only bit 6 cleared. *)
Lemma clearAlertInterrupt_bit6_not_cleared :
  exists lo,
    last_event
      (capture (snd (@MAX17048G.clearAlertInterrupt (datasheet 0) _ _
                       (fresh_wire 0x97 0x7F)))) =
      Some (EvWrite 0x36 [0x0C; 0x97; lo] true) /\
    ~ clears_only_bit 6 0x7F lo.
Proof.
  exists 0x5F. split; [reflexivity |].
  intros [Hbit6 _]. discriminate Hbit6.
Qed.

(** C10, as the claim has it, fails at [p = 16]: with the status byte at
    [0x10] the threshold decoded before is 16, inside [1, 31], and the
    threshold decoded after [sleep] and after [wake] is 16 again, so it is
    preserved and is not a value other than [p]. *)
Lemma sleep_wake_keep_threshold_16 :
  fst (@MAX17048G.getAlertThreshold (datasheet 0) _ _ (fresh_wire 0x97 0x10))
    = 16 /\
  ~ (fst (@MAX17048G.getAlertThreshold (datasheet 0) _ _
            (snd (@MAX17048G.sleep (datasheet 0) _ _ (fresh_wire 0x97 0x10))))
     <> 16) /\
  ~ (fst (@MAX17048G.getAlertThreshold (datasheet 0) _ _
            (snd (@MAX17048G.wake (datasheet 0) _ _ (fresh_wire 0x97 0x10))))
     <> 16).
Proof.
  split; [reflexivity |].
  split; intros Hne; apply Hne; reflexivity.
Qed.

(** ** The claims at work on concrete states *)

(** A mock whose VCELL register holds [(0xD0, 0x20)]: 3330 counts. *)
Lemma getCellVolt_scaled_reading_witness :
  fst (@MAX17048G.getCellVolt (datasheet 0) binary64 _ _
         {| MAX17048G._ic := 2 |}
         (mkWire 0 [] []
            (mkRegs 0 (store 0x02 0xD0 (store 0x03 0x20 (fun _ => 0)))) []))
  = (float_of_Z 3330 * 0x1.47ae147ae147bp-10 * float_of_Z 2)%float.
Proof.
  apply (@getCellVolt_scaled_reading (datasheet 0) binary64 _ _
           {| MAX17048G._ic := 2 |} 0xD0 0x20).
  - unfold is_u8. lia.
  - unfold is_u8. lia.
  - reflexivity.
Defined.

(** [setAlertThreshold 4] with CONFIG at [(0x97, 0x9C)] and [thrd = 0]:
    the low byte written is [0x80], where the encoding of 4 is [0x1C]. *)
Lemma setAlertThreshold_writes_thrd_witness :
  capture (snd (@MAX17048G.setAlertThreshold (datasheet 0) _ _ 4
                  (fresh_wire 0x97 0x9C))) =
  [EvWrite 0x36 [0x0C] false;
   EvRead 0x36 2 [0x97; 0x9C];
   EvWrite 0x36 [0x0C; 0x97; 0x80] true].
Proof.
  apply (@setAlertThreshold_writes_thrd (datasheet 0) _ _ 4 0x97 0x9C
           (fresh_wire 0x97 0x9C)).
  - unfold is_u8. lia.
  - unfold is_u8. lia.
  - reflexivity.
Defined.

(** [setCompensation 0x55] with CONFIG at [(0x97, 0xDC)]: the mock ends
    with CONFIG at [(0x55, 0xDC)]. *)
Lemma setCompensation_keeps_status_witness :
  regs (device (snd (@MAX17048G.setCompensation (datasheet 0) _ _ 0x55
                       (fresh_wire 0x97 0xDC)))) 0x0C = 0x55 /\
  regs (device (snd (@MAX17048G.setCompensation (datasheet 0) _ _ 0x55
                       (fresh_wire 0x97 0xDC)))) 0x0D = 0xDC /\
  fst (@MAX17048G.setCompensation (datasheet 0) _ _ 0x55
         (fresh_wire 0x97 0xDC)) = 0 /\
  capture (snd (@MAX17048G.setCompensation (datasheet 0) _ _ 0x55
                  (fresh_wire 0x97 0xDC))) =
  [EvWrite 0x36 [0x0D] true;
   EvRead 0x36 1 [0xDC];
   EvWrite 0x36 [0x0C; 0x55; 0xDC] true].
Proof.
  destruct (@setCompensation_keeps_status (datasheet 0) _ _ 0x55 0xDC
              (fresh_wire 0x97 0xDC)) as (_ & Hdev & Hres & Hcap).
  - unfold is_u8. lia.
  - unfold is_u8. lia.
  - reflexivity.
  - rewrite Hdev, Hres.
    split; [reflexivity | split; [reflexivity | split; [reflexivity |]]].
    exact Hcap.
Defined.

Lemma clearAlertInterrupt_clears_bit5_witness :
  regs (device (snd (@MAX17048G.clearAlertInterrupt (datasheet 0) _ _
                       (fresh_wire 0x97 0x7F)))) 0x0D = 0x5F /\
  capture (snd (@MAX17048G.clearAlertInterrupt (datasheet 0) _ _
                  (fresh_wire 0x97 0x7F))) =
  [EvWrite 0x36 [0x0C] true;
   EvRead 0x36 1 [0x97];
   EvWrite 0x36 [0x0D] true;
   EvRead 0x36 1 [0x7F];
   EvWrite 0x36 [0x0C; 0x97; 0x5F] true] /\
  clears_only_bit 5 0x7F 0x5F /\
  Z.land 0x7F 0xDF = 0x5F.
Proof.
  destruct (@clearAlertInterrupt_clears_bit5 (datasheet 0) _ _ 0x97 0x7F
              (fresh_wire 0x97 0x7F)) as (Hrun & Hcap & Hbits & Hex).
  - unfold is_u8. lia.
  - unfold is_u8. lia.
  - reflexivity.
  - reflexivity.
  - split; [rewrite Hrun; reflexivity |].
    split; [exact Hcap | split; [exact Hbits | apply Hex; reflexivity]].
Defined.

Lemma sleeping_after_sleep_and_wake_witness :
  fst (@MAX17048G.sleeping (datasheet 0) _ _
         (snd (@MAX17048G.sleep (datasheet 0) _ _ (fresh_wire 0x97 0x1C)))) =
    true /\
  fst (@MAX17048G.sleeping (datasheet 0) _ _
         (snd (@MAX17048G.wake (datasheet 0) _ _ (fresh_wire 0x97 0x9C)))) =
    false.
Proof.
  split.
  - apply (@sleeping_after_sleep_and_wake (datasheet 0)
             (fresh_wire 0x97 0x1C)). reflexivity.
  - apply (@sleeping_after_sleep_and_wake (datasheet 0)
             (fresh_wire 0x97 0x9C)). reflexivity.
Defined.

(** Threshold 4 (status [0x1C]) reads back as 28 after [sleep] and after
    [wake]; threshold 32 (status [0x00]) makes both write bit 5. *)
Lemma sleep_wake_write_decoded_threshold_witness :
  (fst (@MAX17048G.getAlertThreshold (datasheet 0) _ _
          (snd (@MAX17048G.sleep (datasheet 0) _ _ (fresh_wire 0x97 0x1C))))
   = 32 - 4 /\
   fst (@MAX17048G.getAlertThreshold (datasheet 0) _ _
          (snd (@MAX17048G.wake (datasheet 0) _ _ (fresh_wire 0x97 0x1C))))
   = 32 - 4) /\
  (Z.testbit (Z.lor 0x80 32) 5 = true /\ Z.testbit 32 5 = true).
Proof.
  split.
  - destruct (@sleep_wake_write_decoded_threshold (datasheet 0)
                (fresh_wire 0x97 0x1C) 4 eq_refl eq_refl)
      as (_ & _ & Hread & _).
    destruct Hread as (Hsleep & Hwake & _); [lia |].
    split; [exact Hsleep | exact Hwake].
  - apply (@sleep_wake_write_decoded_threshold (datasheet 0)
             (fresh_wire 0x97 0x00) 32); reflexivity.
Defined.

(** * Further properties of the driver *)

(** *** The two-byte readings *)

Lemma getVersion_answers
  {hdr : Header} {D : Type} `{I2CDevice D}
  (byte0 byte1 : Z) (w : TwoWire D) :
  is_u8 byte0 -> is_u8 byte1 ->
  answers MAX1704X_VERSION_ADDR 2 true w = [byte0; byte1] ->
  MAX17048G.getVersion w =
  ((Z.shiftl byte0 8 + byte1) mod 65536, snd (MAX17048G.getVersion w)) /\
  capture (snd (MAX17048G.getVersion w)) =
  capture w ++
  [EvWrite (u8 MAX1704X_ADDR) [u8 MAX1704X_VERSION_ADDR] true;
   EvRead (u8 MAX1704X_ADDR) 2 [byte0; byte1]].
Proof.
  intros Hb0 Hb1.
  unfold answers, MAX17048G.getVersion. bus_unfold. bus_simpl.
  destruct (dev_write _ _ _ _) as [st d1]. bus_simpl.
  destruct (dev_read _ _ _) as [data d2]. bus_simpl. intros ->. bus_simpl.
  rewrite (u8_id byte0), (u8_id byte1) by assumption.
  rewrite <- app_assoc. split; reflexivity.
Qed.

(** X1.  When the device answers the two-byte VERSION read with
    [(byte0, byte1)], [getVersion] returns the big-endian word
    [256 * byte0 + byte1]: its upper byte is [byte0], its lower byte is
    [byte1].  On the bus this is the register address alone, then the read
    of two bytes. *)
Theorem getVersion_big_endian
  {hdr : Header} {D : Type} `{I2CDevice D}
  (byte0 byte1 : Z) (w : TwoWire D) :
  is_u8 byte0 -> is_u8 byte1 ->
  answers MAX1704X_VERSION_ADDR 2 true w = [byte0; byte1] ->
  fst (MAX17048G.getVersion w) = 256 * byte0 + byte1 /\
  fst (MAX17048G.getVersion w) / 256 = byte0 /\
  fst (MAX17048G.getVersion w) mod 256 = byte1 /\
  capture (snd (MAX17048G.getVersion w)) =
  capture w ++
  [EvWrite (u8 MAX1704X_ADDR) [u8 MAX1704X_VERSION_ADDR] true;
   EvRead (u8 MAX1704X_ADDR) 2 [byte0; byte1]].
Proof.
  intros Hb0 Hb1 Hans.
  destruct (getVersion_answers byte0 byte1 w Hb0 Hb1 Hans) as [Hval Hcap].
  rewrite Hval. cbn [fst].
  rewrite Z.shiftl_mul_pow2 by lia. change (2 ^ 8) with 256.
  unfold is_u8 in *.
  rewrite (Z.mod_small (byte0 * 256 + byte1) 65536) by lia.
  repeat split.
  - lia.
  - rewrite Z.div_add_l by lia. rewrite Z.div_small by lia. lia.
  - rewrite Z.add_comm, Z.mod_add by lia. apply Z.mod_small. lia.
  - exact Hcap.
Qed.

Lemma all_byte_pairs_spec (f : Z -> Z -> bool) :
  all_bytes (fun b0 => all_bytes (f b0)) = true ->
  forall b0 b1, is_u8 b0 -> is_u8 b1 -> f b0 b1 = true.
Proof.
  intros Hall b0 b1 Hb0 Hb1.
  apply (all_bytes_spec (f b0)); [| assumption].
  apply (all_bytes_spec (fun b0 => all_bytes (f b0))); assumption.
Qed.

Lemma getSOC_answers
  {hdr : Header} {dbl : Double} {D : Type} `{I2CDevice D}
  (byte0 byte1 : Z) (w : TwoWire D) :
  is_u8 byte0 -> is_u8 byte1 ->
  answers MAX1704X_SOC_ADDR 2 true w = [byte0; byte1] ->
  fst (MAX17048G.getSOC w) =
  dadd (of_int byte0) (ddiv (of_int byte1) (of_int 256)).
Proof.
  intros Hb0 Hb1.
  unfold answers, MAX17048G.getSOC. bus_unfold. bus_simpl.
  destruct (dev_write _ _ _ _) as [st d1]. bus_simpl.
  destruct (dev_read _ _ _) as [data d2]. bus_simpl. intros ->. bus_simpl.
  rewrite (u8_id byte0), (u8_id byte1) by assumption. reflexivity.
Qed.

(** X2.  With IEEE binary64 doubles [getSOC] is exact: when the device
    answers the two-byte SOC read with [(byte0, byte1)], the result times
    256 is the integer [256 * byte0 + byte1], and the result lies in
    [0, 256). *)
Theorem getSOC_exact_binary64
  {hdr : Header} {D : Type} `{I2CDevice D}
  (byte0 byte1 : Z) (w : TwoWire D) :
  is_u8 byte0 -> is_u8 byte1 ->
  answers MAX1704X_SOC_ADDR 2 true w = [byte0; byte1] ->
  let soc : float := fst (@MAX17048G.getSOC hdr binary64 D _ w) in
  PrimFloat.eqb (soc * 256) (float_of_Z (256 * byte0 + byte1)) = true /\
  PrimFloat.leb 0 soc = true /\
  PrimFloat.ltb soc 256 = true.
Proof.
  intros Hb0 Hb1 Hans soc. subst soc.
  rewrite (getSOC_answers byte0 byte1 w Hb0 Hb1 Hans).
  pose proof (all_byte_pairs_spec
    (fun b0 b1 =>
       let soc := (float_of_Z b0 + float_of_Z b1 / float_of_Z 256)%float in
       PrimFloat.eqb (soc * 256) (float_of_Z (256 * b0 + b1)) &&
       PrimFloat.leb 0 soc && PrimFloat.ltb soc 256)
    ltac:(vm_compute; reflexivity) byte0 byte1 Hb0 Hb1) as Hf.
  cbv zeta beta in Hf. rewrite !andb_true_iff in Hf.
  destruct Hf as [[H1 H2] H3]. repeat split; assumption.
Qed.

Lemma getCellVolt_answers
  {hdr : Header} {dbl : Double} {D : Type} `{I2CDevice D}
  (this : MAX17048G.instance) (byte0 byte1 : Z) (w : TwoWire D) :
  is_u8 byte0 -> is_u8 byte1 ->
  answers MAX1704X_VCELL_ADDR 2 true w = [byte0; byte1] ->
  fst (MAX17048G.getCellVolt this w) =
  dmul (dmul (of_int (Z.shiftl byte0 4 + Z.shiftr byte1 4)) lit_0_00125)
       (of_int (MAX17048G._ic this)).
Proof.
  intros Hb0 Hb1.
  unfold answers, MAX17048G.getCellVolt. bus_unfold. bus_simpl.
  destruct (dev_write _ _ _ _) as [st d1]. bus_simpl.
  destruct (dev_read _ _ _) as [data d2]. bus_simpl. intros ->. bus_simpl.
  rewrite (u8_id byte0), (u8_id byte1) by assumption. reflexivity.
Qed.

(** X3.  With IEEE binary64 doubles and [_ic] 1 or 2, the voltage
    [getCellVolt] returns is at least 0 and below [5.12 * _ic], and it is 0
    exactly when the twelve-bit reading is 0, that is when [byte0] is 0 and
    [byte1] is below 16: the low four bits of [byte1] do not count. *)
Theorem getCellVolt_range_binary64
  {hdr : Header} {D : Type} `{I2CDevice D}
  (this : MAX17048G.instance) (byte0 byte1 : Z) (w : TwoWire D) :
  is_u8 byte0 -> is_u8 byte1 ->
  answers MAX1704X_VCELL_ADDR 2 true w = [byte0; byte1] ->
  MAX17048G._ic this = 1 \/ MAX17048G._ic this = 2 ->
  let volt : float := fst (@MAX17048G.getCellVolt hdr binary64 D _ this w) in
  PrimFloat.leb 0 volt = true /\
  PrimFloat.ltb volt (0x1.47ae147ae147bp+2 * float_of_Z (MAX17048G._ic this)) = true /\
  (PrimFloat.eqb volt 0 = true <-> byte0 = 0 /\ byte1 < 16).
Proof.
  intros Hb0 Hb1 Hans Hic volt. subst volt.
  rewrite (getCellVolt_answers this byte0 byte1 w Hb0 Hb1 Hans).
  pose proof (all_byte_pairs_spec
    (fun b0 b1 =>
       forallb (fun ic =>
         let volt := (float_of_Z (Z.shiftl b0 4 + Z.shiftr b1 4)
                      * 0x1.47ae147ae147bp-10 * float_of_Z ic)%float in
         PrimFloat.leb 0 volt &&
         PrimFloat.ltb volt (0x1.47ae147ae147bp+2 * float_of_Z ic) &&
         Bool.eqb (PrimFloat.eqb volt 0) ((b0 =? 0) && (b1 <? 16)))
       [1; 2])
    ltac:(vm_compute; reflexivity) byte0 byte1 Hb0 Hb1) as Hf.
  cbv beta in Hf. rewrite forallb_forall in Hf.
  assert (Hin : In (MAX17048G._ic this) [1; 2])
    by (destruct Hic as [-> | ->]; cbn; tauto).
  specialize (Hf _ Hin). cbv zeta in Hf.
  rewrite !andb_true_iff, Bool.eqb_true_iff in Hf.
  destruct Hf as [[H1 H2] H3].
  split; [exact H1 |]. split; [exact H2 |].
  change (@dmul binary64) with PrimFloat.mul.
  change (@of_int binary64) with float_of_Z.
  change (@lit_0_00125 binary64) with 0x1.47ae147ae147bp-10%float.
  rewrite H3, andb_true_iff, Z.eqb_eq, Z.ltb_lt. tauto.
Qed.

(** *** When the device does not answer *)

(** X6.  When the status read brings no byte, [Wire.read()] is -1 and
    [getStatus] returns [0xFF]; [getAlertThreshold] then returns 1 and
    [sleeping] returns [true].  A read that failed is not told apart from
    a sleeping chip with threshold 1. *)
Theorem getStatus_without_answer
  {hdr : Header} {D : Type} `{I2CDevice D} (w : TwoWire D) :
  answers MAX1704X_ATHRD_ADDR 1 true w = [] ->
  fst (MAX17048G.getStatus w) = 0xFF /\
  fst (MAX17048G.getAlertThreshold w) = 1 /\
  fst (MAX17048G.sleeping w) = true.
Proof.
  intros Hans.
  assert (Hst : fst (MAX17048G.getStatus w) = 0xFF).
  { revert Hans. unfold answers, MAX17048G.getStatus. bus_unfold. bus_simpl.
    destruct (dev_write _ _ _ _) as [st d1]. bus_simpl.
    destruct (dev_read _ _ _) as [data d2]. bus_simpl. intros ->. reflexivity. }
  split; [exact Hst |].
  rewrite getAlertThreshold_decode, sleeping_status, Hst. split; reflexivity.
Qed.

Section Silent.
Context {hdr : Header} {D : Type} `{I2CDevice D}.
Implicit Type w : TwoWire D.

(** A device that brings no byte on any read. *)
Hypothesis silent : forall a n (d : D), fst (dev_read a n d) = [].




End Silent.



(** X8.  The value returned by each writing operation is the status of
    the write transaction that carries its two data bytes, not that of a
    transaction that only sets the register address before a read: on a
    transport that gives status [st] to every write transaction of a
    register address and two data bytes, whatever it gives to the other
    transactions, all seven return [st] as a byte. *)
Theorem write_operations_return_status
  {hdr : Header} {D : Type} `{I2CDevice D}
  (st value threshold : Z) (w : TwoWire D) :
  (forall a r x y stop (d : D), fst (dev_write a [r; x; y] stop d) = st) ->
  fst (MAX17048G.setCompensation value w) = u8 st /\
  fst (MAX17048G.setAlertThreshold threshold w) = u8 st /\
  fst (MAX17048G.clearAlertInterrupt w) = u8 st /\
  fst (MAX17048G.sleep w) = u8 st /\
  fst (MAX17048G.wake w) = u8 st /\
  fst (MAX17048G.quickStart w) = u8 st /\
  fst (MAX17048G.reset w) = u8 st.
Proof.
  intros Hst.
  assert (Htr : forall r x y (w' : TwoWire D),
             fst (transaction [r; x; y] true w') = u8 st).
  { intros r x y w'. unfold transaction.
    pose proof (Hst (u8 MAX1704X_ADDR) r x y true (device w')) as Hs.
    destruct (dev_write _ _ _ _) as [s d]. cbn in *. subst s. reflexivity. }
  repeat split.
  - rewrite setCompensation_run. apply Htr.
  - unfold MAX17048G.setAlertThreshold. bus_unfold. bus_simpl.
    destruct (dev_write _ _ _ _) as [s1 d1]. bus_simpl.
    destruct (dev_read _ _ _) as [data d2].
    destruct data as [| b0 [| b1 rest]]; bus_simpl;
      match goal with
      | |- context [dev_write ?a [?r; ?x; ?y] ?s ?d] =>
          pose proof (Hst a r x y s d) as Hs;
          destruct (dev_write a [r; x; y] s d) as [s3 d3]
      end;
      cbn in *; subst s3; reflexivity.
  - rewrite clearAlertInterrupt_run. apply Htr.
  - rewrite sleep_run. apply Htr.
  - rewrite wake_run. apply Htr.
  - apply (Htr (u8 MAX1704X_MODE_ADDR) 0x40 0x00 w).
  - apply (Htr (u8 MAX1704X_COMMAND_ADDR) 0x54 0x00 w).
Qed.

(** *** Registers of the mock device *)

Lemma store_other (a v x : Z) (m : Z -> Z) : x <> a -> store a v m x = m x.
Proof.
  intros Hne. unfold store. destruct (Z.eqb_spec x a); [contradiction | reflexivity].
Qed.

Section MockRegisters.
Context {hdr : Header}.
Implicit Type w : TwoWire RegisterFile.

(** The registers after a write of two data bytes. *)
Lemma mock_transaction_regs (r c lo : Z) w :
  regs (device (snd (transaction [r; c; lo] true w))) =
  store (u8 (r + 1)) lo (store r c (regs (device w))).
Proof. reflexivity. Qed.

Lemma mock_getStatus_regs w :
  regs (device (snd (MAX17048G.getStatus w))) = regs (device w).
Proof. rewrite mock_getStatus. reflexivity. Qed.

Lemma mock_getCompensation_regs w :
  regs (device (snd (MAX17048G.getCompensation w))) = regs (device w).
Proof. rewrite mock_getCompensation. reflexivity. Qed.

Lemma mock_status_value w :
  fst (MAX17048G.getStatus w) = u8 (regs (device w) (u8 MAX1704X_ATHRD_ADDR)).
Proof. rewrite mock_getStatus. reflexivity. Qed.

Lemma mock_compensation_value w :
  fst (MAX17048G.getCompensation w) =
  u8 (regs (device w) (u8 MAX1704X_RCOMP_ADDR)).
Proof. rewrite mock_getCompensation. reflexivity. Qed.

Lemma mock_setAlertThreshold_regs (threshold : Z) w :
  regs (device (snd (MAX17048G.setAlertThreshold threshold w))) =
  store (u8 (u8 MAX1704X_CONFIG_ADDR + 1))
    (u8 (Z.lor
           (u8 (Z.land
                  (u8 (regs (device w) (u8 (u8 MAX1704X_CONFIG_ADDR + 1))))
                  0x80))
           thrd))
    (store (u8 MAX1704X_CONFIG_ADDR)
       (u8 (regs (device w) (u8 MAX1704X_CONFIG_ADDR)))
       (regs (device w))).
Proof.
  unfold MAX17048G.setAlertThreshold. bus_unfold. bus_simpl.
  rewrite !u8_u8. reflexivity.
Qed.

(** The registers after each operation that writes CONFIG. *)
Lemma mock_setCompensation_regs (value : Z) w :
  regs (device (snd (MAX17048G.setCompensation value w))) =
  store (u8 (u8 MAX1704X_CONFIG_ADDR + 1))
    (u8 (regs (device w) (u8 MAX1704X_ATHRD_ADDR)))
    (store (u8 MAX1704X_CONFIG_ADDR) (u8 value) (regs (device w))).
Proof.
  rewrite setCompensation_run, mock_transaction_regs.
  rewrite mock_getStatus_regs, mock_status_value. reflexivity.
Qed.

Lemma mock_clearAlertInterrupt_regs w :
  regs (device (snd (MAX17048G.clearAlertInterrupt w))) =
  store (u8 (u8 MAX1704X_CONFIG_ADDR + 1))
    (u8 (Z.land 0xDF (u8 (regs (device w) (u8 MAX1704X_ATHRD_ADDR)))))
    (store (u8 MAX1704X_CONFIG_ADDR)
       (u8 (regs (device w) (u8 MAX1704X_RCOMP_ADDR))) (regs (device w))).
Proof.
  rewrite clearAlertInterrupt_run. cbv zeta. rewrite mock_transaction_regs.
  rewrite mock_getStatus_regs, mock_status_value, mock_getCompensation_regs,
    mock_compensation_value. reflexivity.
Qed.

Lemma mock_sleep_regs w :
  regs (device (snd (MAX17048G.sleep w))) =
  store (u8 (u8 MAX1704X_CONFIG_ADDR + 1))
    (u8 (Z.lor 0x80 (decode (u8 (regs (device w) (u8 MAX1704X_ATHRD_ADDR))))))
    (store (u8 MAX1704X_CONFIG_ADDR)
       (u8 (regs (device w) (u8 MAX1704X_RCOMP_ADDR))) (regs (device w))).
Proof.
  rewrite sleep_run. cbv zeta. rewrite mock_transaction_regs.
  rewrite mock_getStatus_regs, mock_status_value, mock_getCompensation_regs,
    mock_compensation_value. reflexivity.
Qed.

Lemma mock_wake_regs w :
  regs (device (snd (MAX17048G.wake w))) =
  store (u8 (u8 MAX1704X_CONFIG_ADDR + 1))
    (u8 (Z.land 0x7F (decode (u8 (regs (device w) (u8 MAX1704X_ATHRD_ADDR))))))
    (store (u8 MAX1704X_CONFIG_ADDR)
       (u8 (regs (device w) (u8 MAX1704X_RCOMP_ADDR))) (regs (device w))).
Proof.
  rewrite wake_run. cbv zeta. rewrite mock_transaction_regs.
  rewrite mock_getStatus_regs, mock_status_value, mock_getCompensation_regs,
    mock_compensation_value. reflexivity.
Qed.

End MockRegisters.

(** X9.  On the mock, an operation changes the two bytes of the register
    it addresses and no other: [setCompensation], [setAlertThreshold],
    [clearAlertInterrupt], [sleep] and [wake] leave every register but the
    two bytes of CONFIG as it was, [quickStart] every register but the two
    bytes of MODE, [reset] every register but the two bytes of COMMAND. *)
Theorem writers_touch_their_register_only
  {hdr : Header} (value threshold a : Z) (w : TwoWire RegisterFile) :
  let untouched op := regs (device (snd (op w))) a = regs (device w) a in
  (a <> u8 MAX1704X_CONFIG_ADDR -> a <> u8 (u8 MAX1704X_CONFIG_ADDR + 1) ->
   untouched (MAX17048G.setCompensation value) /\
   untouched (MAX17048G.setAlertThreshold threshold) /\
   untouched MAX17048G.clearAlertInterrupt /\
   untouched MAX17048G.sleep /\
   untouched MAX17048G.wake) /\
  (a <> u8 MAX1704X_MODE_ADDR -> a <> u8 (u8 MAX1704X_MODE_ADDR + 1) ->
   untouched MAX17048G.quickStart) /\
  (a <> u8 MAX1704X_COMMAND_ADDR -> a <> u8 (u8 MAX1704X_COMMAND_ADDR + 1) ->
   untouched MAX17048G.reset).
Proof.
  intros untouched. subst untouched. cbv beta.
  split; [| split].
  - intros H0 H1. repeat split.
    + rewrite mock_setCompensation_regs, !store_other by assumption. reflexivity.
    + rewrite mock_setAlertThreshold_regs, !store_other by assumption. reflexivity.
    + rewrite mock_clearAlertInterrupt_regs, !store_other by assumption. reflexivity.
    + rewrite mock_sleep_regs, !store_other by assumption. reflexivity.
    + rewrite mock_wake_regs, !store_other by assumption. reflexivity.
  - intros H0 H1.
    change (regs (device (snd (MAX17048G.quickStart w))))
      with (store (u8 (u8 MAX1704X_MODE_ADDR + 1)) (u8 0x00)
              (store (u8 MAX1704X_MODE_ADDR) (u8 0x40) (regs (device w)))).
    rewrite !store_other by assumption. reflexivity.
  - intros H0 H1.
    change (regs (device (snd (MAX17048G.reset w))))
      with (store (u8 (u8 MAX1704X_COMMAND_ADDR + 1)) (u8 0x00)
              (store (u8 MAX1704X_COMMAND_ADDR) (u8 0x54) (regs (device w)))).
    rewrite !store_other by assumption. reflexivity.
Qed.

(** *** What the readers put on the bus *)

Section Readers.
Context {hdr : Header} {dbl : Double} {D : Type} `{I2CDevice D}.
Implicit Type w : TwoWire D.

Ltac read_trace n :=
  bus_unfold; bus_simpl;
  destruct (dev_write _ _ _ _) as [st d1]; bus_simpl;
  destruct (dev_read _ _ _) as [data d2];
  exists (map u8 (firstn n data)); split;
  [ rewrite length_map; apply firstn_le_length
  | destruct data as [| b0 [| b1 rest]]; bus_simpl;
    rewrite <- app_assoc; reflexivity ].

Lemma getStatus_read_only w :
  read_only MAX1704X_ATHRD_ADDR 1
    (capture w) (capture (snd (MAX17048G.getStatus w))).
Proof. unfold read_only, MAX17048G.getStatus. read_trace 1%nat. Qed.

Lemma getCompensateValue_read_only w :
  read_only MAX1704X_RCOMP_ADDR 1
    (capture w) (capture (snd (MAX17048G.getCompensateValue w))).
Proof. unfold read_only, MAX17048G.getCompensateValue. read_trace 1%nat. Qed.

Lemma getVersion_read_only w :
  read_only MAX1704X_VERSION_ADDR 2
    (capture w) (capture (snd (MAX17048G.getVersion w))).
Proof. unfold read_only, MAX17048G.getVersion. read_trace 2%nat. Qed.

Lemma getSOC_read_only w :
  read_only MAX1704X_SOC_ADDR 2
    (capture w) (capture (snd (MAX17048G.getSOC w))).
Proof. unfold read_only, MAX17048G.getSOC. read_trace 2%nat. Qed.

Lemma getCellVolt_read_only (this : MAX17048G.instance) w :
  read_only MAX1704X_VCELL_ADDR 2
    (capture w) (capture (snd (MAX17048G.getCellVolt this w))).
Proof. unfold read_only, MAX17048G.getCellVolt. read_trace 2%nat. Qed.

End Readers.

(** X4.  The reading operations send no data: on any device and from
    any state, each of them adds to the bus exactly one write transaction
    that carries the register address alone and one read transaction of at
    most the number of bytes asked for (two for VCELL, SOC and VERSION, one
    for RCOMP and for the status byte). *)
Theorem readers_send_no_data
  {hdr : Header} {dbl : Double} {D : Type} `{I2CDevice D}
  (this : MAX17048G.instance) (w : TwoWire D) :
  read_only MAX1704X_VCELL_ADDR 2
    (capture w) (capture (snd (MAX17048G.getCellVolt this w))) /\
  read_only MAX1704X_SOC_ADDR 2
    (capture w) (capture (snd (MAX17048G.getSOC w))) /\
  read_only MAX1704X_VERSION_ADDR 2
    (capture w) (capture (snd (MAX17048G.getVersion w))) /\
  read_only MAX1704X_RCOMP_ADDR 1
    (capture w) (capture (snd (MAX17048G.getCompensateValue w))) /\
  read_only MAX1704X_ATHRD_ADDR 1
    (capture w) (capture (snd (MAX17048G.getStatus w))) /\
  read_only MAX1704X_ATHRD_ADDR 1
    (capture w) (capture (snd (MAX17048G.getAlertThreshold w))) /\
  read_only MAX1704X_ATHRD_ADDR 1
    (capture w) (capture (snd (MAX17048G.sleeping w))).
Proof.
  repeat split.
  - apply getCellVolt_read_only.
  - apply getSOC_read_only.
  - apply getVersion_read_only.
  - apply getCompensateValue_read_only.
  - apply getStatus_read_only.
  - rewrite getAlertThreshold_decode. apply getStatus_read_only.
  - unfold MAX17048G.sleeping, bind, ret.
    pose proof (getStatus_read_only w) as Hs.
    destruct (MAX17048G.getStatus w) as [s w1]. exact Hs.
Qed.

(** X5.  When the device answers the single-byte reads of RCOMP and of
    the status byte with [c] and [s], [getCompensateValue] returns [c],
    [getStatus] returns [s], [sleeping] returns bit 7 of [s], and
    [getAlertThreshold] returns [32 - s mod 32], which bits 7..5 of [s] do
    not enter. *)
Theorem single_byte_readers
  {hdr : Header} {D : Type} `{I2CDevice D} (c s : Z) (w : TwoWire D) :
  is_u8 c -> is_u8 s ->
  answers MAX1704X_RCOMP_ADDR 1 true w = [c] ->
  answers MAX1704X_ATHRD_ADDR 1 true w = [s] ->
  fst (MAX17048G.getCompensateValue w) = c /\
  fst (MAX17048G.getStatus w) = s /\
  fst (MAX17048G.sleeping w) = Z.testbit s 7 /\
  fst (MAX17048G.getAlertThreshold w) = 32 - s mod 32.
Proof.
  intros Hc Hs Hansc Hanss. split.
  - rewrite <- getCompensation_getCompensateValue.
    destruct (getCompensation_answers w c Hansc) as [Hv _].
    rewrite Hv. apply u8_id. assumption.
  - destruct (getStatus_answers w s Hanss) as [Hv _].
    rewrite (u8_id s Hs) in Hv.
    rewrite sleeping_status, getAlertThreshold_decode, Hv. cbn [fst].
    split; [reflexivity |]. split; [| apply decode_spec].
    apply (all_bytes_spec
             (fun s => Bool.eqb (Z.land s 0x80 =? 0x80) (Z.testbit s 7))
             ltac:(vm_compute; reflexivity)) in Hs.
    apply Bool.eqb_prop in Hs. exact Hs.
Qed.

(** *** Sequences of operations on the mock device *)

Lemma u8_succ_neq (a : Z) : u8 (u8 a + 1) <> u8 a.
Proof.
  pose proof (u8_range a) as Ha. unfold is_u8 in Ha.
  unfold u8 at 1. intros Heq.
  destruct (Z.eq_dec (u8 a) 255) as [E | E].
  - rewrite E in Heq. cbn in Heq. lia.
  - rewrite Z.mod_small in Heq by lia. lia.
Qed.

(** The status byte with bit 5 masked out: same threshold field, same
    sleep bit, bit 5 clear, and masking again changes nothing. *)
Lemma land_0xDF_status (s : Z) :
  is_u8 s ->
  u8 (Z.land 0xDF s) = Z.land 0xDF s /\
  decode (Z.land 0xDF s) = decode s /\
  (Z.land (Z.land 0xDF s) 0x80 =? 0x80) = (Z.land s 0x80 =? 0x80) /\
  Z.testbit (Z.land 0xDF s) 5 = false /\
  Z.land 0xDF (Z.land 0xDF s) = Z.land 0xDF s.
Proof.
  intros Hs.
  pose proof (all_bytes_spec
    (fun s => (u8 (Z.land 0xDF s) =? Z.land 0xDF s) &&
              (decode (Z.land 0xDF s) =? decode s) &&
              Bool.eqb (Z.land (Z.land 0xDF s) 0x80 =? 0x80)
                       (Z.land s 0x80 =? 0x80) &&
              negb (Z.testbit (Z.land 0xDF s) 5) &&
              (Z.land 0xDF (Z.land 0xDF s) =? Z.land 0xDF s))
    ltac:(vm_compute; reflexivity) s Hs) as Hf.
  cbv beta in Hf.
  rewrite !andb_true_iff, !Z.eqb_eq, Bool.eqb_true_iff, negb_true_iff in Hf.
  tauto.
Qed.


Section MockSequences.
Context {hdr : Header}.
Implicit Type w : TwoWire RegisterFile.
Hypothesis status_follows_config :
  u8 MAX1704X_ATHRD_ADDR = u8 (u8 MAX1704X_CONFIG_ADDR + 1).





End MockSequences.


(** X10.  On the mock with RCOMP at the CONFIG address and the status
    byte after it: once [setCompensation value] has run,
    [getCompensateValue] returns [value], and [getStatus],
    [getAlertThreshold] and [sleeping] return what they returned before. *)
Theorem setCompensation_read_back
  {hdr : Header} (value : Z) (w : TwoWire RegisterFile) :
  is_u8 value ->
  u8 MAX1704X_RCOMP_ADDR = u8 MAX1704X_CONFIG_ADDR ->
  u8 MAX1704X_ATHRD_ADDR = u8 (u8 MAX1704X_CONFIG_ADDR + 1) ->
  let w' := snd (MAX17048G.setCompensation value w) in
  fst (MAX17048G.getCompensateValue w') = value /\
  fst (MAX17048G.getStatus w') = fst (MAX17048G.getStatus w) /\
  fst (MAX17048G.getAlertThreshold w') = fst (MAX17048G.getAlertThreshold w) /\
  fst (MAX17048G.sleeping w') = fst (MAX17048G.sleeping w).
Proof.
  intros Hv Hrcomp Hathrd w'.
  assert (Hst : fst (MAX17048G.getStatus w') = fst (MAX17048G.getStatus w)).
  { subst w'. rewrite !mock_status_value, mock_setCompensation_regs.
    rewrite <- Hathrd, store_same. apply u8_u8. }
  split; [| split; [exact Hst | split]].
  - subst w'. rewrite <- getCompensation_getCompensateValue.
    rewrite mock_compensation_value, mock_setCompensation_regs, Hrcomp.
    rewrite store_other by (apply not_eq_sym, u8_succ_neq).
    rewrite store_same, u8_u8. apply u8_id. assumption.
  - rewrite !getAlertThreshold_decode. cbn [fst]. rewrite Hst. reflexivity.
  - rewrite !sleeping_status, Hst. reflexivity.
Qed.

(** X12.  On the mock with RCOMP at the CONFIG address and the status
    byte after it: [clearAlertInterrupt] leaves the compensation, the
    alert threshold and the sleep flag as they read before, the status
    byte read afterwards has bit 5 clear, and a second call changes the
    status byte no further. *)
Theorem clearAlertInterrupt_keeps_the_rest
  {hdr : Header} (w : TwoWire RegisterFile) :
  u8 MAX1704X_RCOMP_ADDR = u8 MAX1704X_CONFIG_ADDR ->
  u8 MAX1704X_ATHRD_ADDR = u8 (u8 MAX1704X_CONFIG_ADDR + 1) ->
  let w' := snd (MAX17048G.clearAlertInterrupt w) in
  fst (MAX17048G.getCompensateValue w') = fst (MAX17048G.getCompensateValue w) /\
  fst (MAX17048G.getAlertThreshold w') = fst (MAX17048G.getAlertThreshold w) /\
  fst (MAX17048G.sleeping w') = fst (MAX17048G.sleeping w) /\
  Z.testbit (fst (MAX17048G.getStatus w')) 5 = false /\
  fst (MAX17048G.getStatus (snd (MAX17048G.clearAlertInterrupt w'))) =
    fst (MAX17048G.getStatus w').
Proof.
  intros Hrcomp Hathrd w'.
  assert (Hst : forall v : TwoWire RegisterFile,
             fst (MAX17048G.getStatus (snd (MAX17048G.clearAlertInterrupt v))) =
             Z.land 0xDF (fst (MAX17048G.getStatus v))).
  { intros v. rewrite !mock_status_value, mock_clearAlertInterrupt_regs.
    rewrite <- Hathrd, store_same, u8_u8.
    apply land_0xDF_status, u8_range. }
  pose proof (land_0xDF_status _ (getStatus_byte w))
    as (_ & Hdec & Hsl & Hb5 & Hidem).
  repeat split.
  - subst w'. rewrite <- !getCompensation_getCompensateValue.
    rewrite !mock_compensation_value, mock_clearAlertInterrupt_regs.
    rewrite Hrcomp.
    rewrite store_other by (apply not_eq_sym, u8_succ_neq).
    rewrite store_same. apply u8_u8.
  - rewrite !getAlertThreshold_decode. cbn [fst]. subst w'.
    rewrite Hst. exact Hdec.
  - rewrite !sleeping_status. subst w'. rewrite Hst. exact Hsl.
  - subst w'. rewrite Hst. exact Hb5.
  - rewrite Hst. subst w'. rewrite Hst. exact Hidem.
Qed.



(** X11.  On the mock with RCOMP at the CONFIG address,
    [setAlertThreshold], [sleep] and [wake] leave the compensation as it
    read before. *)
Theorem compensation_survives
  {hdr : Header} (threshold : Z) (w : TwoWire RegisterFile) :
  u8 MAX1704X_RCOMP_ADDR = u8 MAX1704X_CONFIG_ADDR ->
  let compensation_after op :=
    fst (MAX17048G.getCompensateValue (snd (op w))) in
  compensation_after (MAX17048G.setAlertThreshold threshold) =
    fst (MAX17048G.getCompensateValue w) /\
  compensation_after MAX17048G.sleep = fst (MAX17048G.getCompensateValue w) /\
  compensation_after MAX17048G.wake = fst (MAX17048G.getCompensateValue w).
Proof.
  intros Hrcomp compensation_after. subst compensation_after. cbv beta.
  rewrite <- !getCompensation_getCompensateValue.
  rewrite !mock_compensation_value.
  rewrite mock_setAlertThreshold_regs, mock_sleep_regs, mock_wake_regs.
  repeat split.
  - rewrite Hrcomp.
    rewrite store_other by (apply not_eq_sym, u8_succ_neq).
    rewrite store_same. apply u8_u8.
  - rewrite Hrcomp.
    rewrite store_other by (apply not_eq_sym, u8_succ_neq).
    rewrite store_same. apply u8_u8.
  - rewrite Hrcomp.
    rewrite store_other by (apply not_eq_sym, u8_succ_neq).
    rewrite store_same. apply u8_u8.
Qed.

(** *** The further properties at work on concrete states *)

Lemma getVersion_big_endian_witness :
  fst (@MAX17048G.getVersion (datasheet 0) _ _
         (mkWire 0 [] []
            (mkRegs 0 (store 0x08 0x00 (store 0x09 0x12 (fun _ => 0)))) []))
  = 256 * 0x00 + 0x12.
Proof.
  apply (@getVersion_big_endian (datasheet 0) _ _ 0x00 0x12).
  - unfold is_u8. lia.
  - unfold is_u8. lia.
  - reflexivity.
Defined.

(** SOC bytes [(0x57, 0x80)]: 87.5 percent. *)
Lemma getSOC_exact_binary64_witness :
  PrimFloat.eqb
    (fst (@MAX17048G.getSOC (datasheet 0) binary64 _ _
            (mkWire 0 [] []
               (mkRegs 0 (store 0x04 0x57 (store 0x05 0x80 (fun _ => 0))))
               [])) * 256)
    (float_of_Z (256 * 0x57 + 0x80)) = true.
Proof.
  apply (@getSOC_exact_binary64 (datasheet 0) _ _ 0x57 0x80).
  - unfold is_u8. lia.
  - unfold is_u8. lia.
  - reflexivity.
Defined.

Lemma getCellVolt_range_binary64_witness :
  PrimFloat.ltb
    (fst (@MAX17048G.getCellVolt (datasheet 0) binary64 _ _
            {| MAX17048G._ic := 2 |}
            (mkWire 0 [] []
               (mkRegs 0 (store 0x02 0xD0 (store 0x03 0x20 (fun _ => 0))))
               [])))
    (0x1.47ae147ae147bp+2 * float_of_Z 2) = true.
Proof.
  apply (@getCellVolt_range_binary64 (datasheet 0) _ _
           {| MAX17048G._ic := 2 |} 0xD0 0x20).
  - unfold is_u8. lia.
  - unfold is_u8. lia.
  - reflexivity.
  - right. reflexivity.
Defined.

Lemma single_byte_readers_witness :
  fst (@MAX17048G.getCompensateValue (datasheet 0) _ _ (fresh_wire 0x97 0x9C))
    = 0x97 /\
  fst (@MAX17048G.getStatus (datasheet 0) _ _ (fresh_wire 0x97 0x9C)) = 0x9C /\
  fst (@MAX17048G.sleeping (datasheet 0) _ _ (fresh_wire 0x97 0x9C))
    = Z.testbit 0x9C 7 /\
  fst (@MAX17048G.getAlertThreshold (datasheet 0) _ _ (fresh_wire 0x97 0x9C))
    = 32 - 0x9C mod 32.
Proof.
  apply (@single_byte_readers (datasheet 0) _ _ 0x97 0x9C
           (fresh_wire 0x97 0x9C)).
  - unfold is_u8. lia.
  - unfold is_u8. lia.
  - reflexivity.
  - reflexivity.
Defined.

Lemma getStatus_without_answer_witness :
  fst (@MAX17048G.getStatus (datasheet 0) _ _ dead_wire) = 0xFF /\
  fst (@MAX17048G.getAlertThreshold (datasheet 0) _ _ dead_wire) = 1 /\
  fst (@MAX17048G.sleeping (datasheet 0) _ _ dead_wire) = true.
Proof.
  apply (@getStatus_without_answer (datasheet 0) _ _ dead_wire). reflexivity.
Defined.

(** On the device that refuses data the register address of the status
    read is acknowledged (status 0) and the write of CONFIG is not (status
    3): the operations return 3. *)
Lemma write_operations_return_status_witness :
  fst (dev_write 0x36 [0x0D] true deaf_device) = 0 /\
  fst (@MAX17048G.setCompensation (datasheet 0) _ _ 0x97 deaf_wire) = 3 /\
  fst (@MAX17048G.setAlertThreshold (datasheet 0) _ _ 4 deaf_wire) = 3 /\
  fst (@MAX17048G.sleep (datasheet 0) _ _ deaf_wire) = 3 /\
  fst (@MAX17048G.quickStart (datasheet 0) _ _ deaf_wire) = 3.
Proof.
  destruct (@write_operations_return_status (datasheet 0) _ _ 3 0x97 4
              deaf_wire) as (Hset & Hthr & _ & Hsleep & _ & Hquick & _).
  - intros a r x y stop d. reflexivity.
  - split; [reflexivity |].
    split; [exact Hset | split; [exact Hthr | split; [exact Hsleep | exact Hquick]]].
Defined.

(** VCELL is not touched by [sleep]. *)
Lemma writers_touch_their_register_only_witness :
  regs (device (snd (@MAX17048G.sleep (datasheet 0) _ _
                       (fresh_wire 0x97 0x1C)))) 0x02 =
  regs (device (fresh_wire 0x97 0x1C)) 0x02.
Proof.
  destruct (@writers_touch_their_register_only (datasheet 0) 0x55 4 0x02
              (fresh_wire 0x97 0x1C)) as (Hconfig & _ & _).
  destruct Hconfig as (_ & _ & _ & Hsleep & _).
  - discriminate.
  - discriminate.
  - exact Hsleep.
Defined.

Lemma setCompensation_read_back_witness :
  fst (@MAX17048G.getCompensateValue (datasheet 0) _ _
         (snd (@MAX17048G.setCompensation (datasheet 0) _ _ 0x55
                 (fresh_wire 0x97 0x9C)))) = 0x55.
Proof.
  apply (@setCompensation_read_back (datasheet 0) 0x55 (fresh_wire 0x97 0x9C)).
  - unfold is_u8. lia.
  - reflexivity.
  - reflexivity.
Defined.

Lemma compensation_survives_witness :
  fst (@MAX17048G.getCompensateValue (datasheet 0) _ _
         (snd (@MAX17048G.setAlertThreshold (datasheet 0) _ _ 4
                 (fresh_wire 0x97 0x9C)))) =
  fst (@MAX17048G.getCompensateValue (datasheet 0) _ _ (fresh_wire 0x97 0x9C)).
Proof.
  apply (@compensation_survives (datasheet 0) 4 (fresh_wire 0x97 0x9C)).
  reflexivity.
Defined.

(** Status [0x7C]: threshold 4, alert bit 5 set, bit 6 set. *)
Lemma clearAlertInterrupt_keeps_the_rest_witness :
  fst (@MAX17048G.getAlertThreshold (datasheet 0) _ _
         (snd (@MAX17048G.clearAlertInterrupt (datasheet 0) _ _
                 (fresh_wire 0x97 0x7C)))) =
  fst (@MAX17048G.getAlertThreshold (datasheet 0) _ _ (fresh_wire 0x97 0x7C)).
Proof.
  apply (@clearAlertInterrupt_keeps_the_rest (datasheet 0)
           (fresh_wire 0x97 0x7C)).
  - reflexivity.
  - reflexivity.
Defined.

